(** * Netmiko vendor drivers: Huawei (huawei.py) and HP ProCurve (hp_procurve.py)

    A shallow embedding of the two driver modules and of the parts of
    Python they rely on (str methods, the [re] module on the pattern
    syntax the drivers use, exceptions), followed by the properties of
    the expect-style state machines: login, privilege elevation, prompt
    normalisation, commit and teardown.

    Text is modelled by [string]: a character is a code point below 256.
    Durations (Python floats that only scale sleeps and timeouts) are
    modelled by rationals. *)

From Stdlib Require Import ZArith List Bool Ascii String Lia QArith.
Import ListNotations.

Local Open Scope string_scope.
Local Open Scope Z_scope.

(* ================================================================== *)
(** * Python strings *)
(* ================================================================== *)

Module PyStr.

(** [str.isspace] on one character (code points below 256): TAB..CR,
    FS..US, space, NEL and NBSP. It is also what [\s] matches and what
    [strip] removes. *)
Definition is_space (c : ascii) : bool :=
  let n := N_of_ascii c in
  ((9 <=? n) && (n <=? 13) || (28 <=? n) && (n <=? 32)
   || (n =? 133) || (n =? 160))%N.

(** The decimal digits below 256, [0] to [9]: what [\d] matches. *)
Definition is_digit (c : ascii) : bool :=
  let n := N_of_ascii c in ((48 <=? n) && (n <=? 57))%N.

(** [c.lower()] on one character (ASCII and Latin-1 capitals). *)
Definition lower (c : ascii) : ascii :=
  let n := N_of_ascii c in
  if ((65 <=? n) && (n <=? 90) ||
      (192 <=? n) && (n <=? 222) && negb (n =? 215))%N
  then ascii_of_N (n + 32) else c.

(** [c.upper()] on one character, where the result stays below 256. *)
Definition upper (c : ascii) : ascii :=
  let n := N_of_ascii c in
  if ((97 <=? n) && (n <=? 122) ||
      (224 <=? n) && (n <=? 254) && negb (n =? 247))%N
  then ascii_of_N (n - 32) else c.

Fixpoint lstrip (s : string) : string :=
  match s with
  | String c s' => if is_space c then lstrip s' else s
  | EmptyString => EmptyString
  end.

Fixpoint rstrip (s : string) : string :=
  match s with
  | String c s' =>
      match rstrip s' with
      | EmptyString => if is_space c then EmptyString else String c EmptyString
      | r => String c r
      end
  | EmptyString => EmptyString
  end.

(** [s.strip()] *)
Definition strip (s : string) : string := rstrip (lstrip s).

(** [sub in s] *)
Fixpoint contains (sub s : string) : bool :=
  prefix sub s ||
  match s with
  | String _ s' => contains sub s'
  | EmptyString => false
  end.

(** [s.split(sep)] for a non-empty [sep]: the pieces between the
    occurrences of [sep] found from left to right without overlap.
    [skip] counts the characters of a separator still to be passed. *)
Fixpoint split_go (sep : string) (skip : nat) (s : string) : list string :=
  match s with
  | EmptyString => [EmptyString]
  | String c s' =>
      match skip with
      | S k => split_go sep k s'
      | O =>
          if prefix sep s
          then EmptyString :: split_go sep (String.length sep - 1) s'
          else match split_go sep 0 s' with
               | piece :: rest => String c piece :: rest
               | [] => [String c EmptyString]
               end
      end
  end.

(** [None] stands for the ValueError Python raises on an empty separator. *)
Definition split (s sep : string) : option (list string) :=
  match sep with
  | EmptyString => None
  | _ => Some (split_go sep 0 s)
  end.

(** [l[-1]] on a list; [None] stands for IndexError. *)
Definition last_item {A : Type} (l : list A) : option A :=
  match rev l with
  | x :: _ => Some x
  | [] => None
  end.

(** [s[-1]]: the last character as a one-character string;
    [None] stands for IndexError. *)
Fixpoint last_char (s : string) : option string :=
  match s with
  | EmptyString => None
  | String c EmptyString => Some (String c EmptyString)
  | String _ s' => last_char s'
  end.

(** Slice bounds as Python normalises them: a negative index counts
    from the end, and the result is clamped to [0, len]. *)
Definition slice_index (len i : Z) : Z :=
  let j := if i <? 0 then i + len else i in
  Z.max 0 (Z.min len j).

(** [s[start:stop]] *)
Definition slice (s : string) (start stop : Z) : string :=
  let len := Z.of_nat (String.length s) in
  let a := slice_index len start in
  let b := slice_index len stop in
  substring (Z.to_nat a) (Z.to_nat (b - a)) s.

End PyStr.

(* ================================================================== *)
(** * The [re] module, on the pattern syntax the drivers use *)
(* ================================================================== *)

Module re.

(** Flag values of Python's [re.IGNORECASE] and [re.MULTILINE]. *)
Definition I : Z := 2.
Definition IGNORECASE : Z := I.
Definition M : Z := 8.

Definition has_flag (flags f : Z) : bool := negb (Z.land flags f =? 0).

(** What [re.compile] reports for a pattern it refuses
    ([unsupported] marks syntax outside the modelled subset). *)
Inductive error : Type :=
| unbalanced_parenthesis
| missing_parenthesis
| nothing_to_repeat
| multiple_repeat
| unterminated_set
| bad_character_range
| bad_escape
| unsupported.

(** Members of a character set [[...]]. *)
Inductive citem : Type :=
| CChar (c : ascii)
| CRange (lo hi : ascii)
| CDigit
| CSpace
| CNotDigit
| CNotSpace.

Inductive regex : Type :=
| Eps
| Lit (c : ascii)
| Dot
| CSet (neg : bool) (items : list citem)
| Bol
| Eol
| Cat (r1 r2 : regex)
| Alt (r1 r2 : regex)
| Star (r : regex)
| Plus (r : regex)
| Opt (r : regex)
| Group (r : regex).

(** ** Parsing a pattern string *)

(** An open group: the alternatives completed so far and the items of
    the alternative being read, both newest first. *)
Record frame : Type := mkFrame { alts : list regex; cur : list regex }.

Definition empty_frame : frame := mkFrame [] [].

Inductive pmode : Type :=
| PNormal
| PEscape
| POpen
| POpenQ
| PSetStart
| PSet (neg first : bool) (items : list citem)
| PSetEscape (neg : bool) (items : list citem)
| PSetDash (neg : bool) (items : list citem) (lo : ascii).

Record pstate : Type :=
  mkP { mode : pmode; stack : list frame; top : frame }.

Definition seq_of (items : list regex) : regex :=
  match items with
  | [] => Eps
  | r :: rs => fold_left (fun acc x => Cat x acc) rs r
  end.

Definition close_frame (f : frame) : regex :=
  match alts f with
  | [] => seq_of (cur f)
  | a :: rest =>
      fold_left (fun acc x => Alt x acc) (a :: rest) (seq_of (cur f))
  end.

Definition push_item (f : frame) (r : regex) : frame :=
  mkFrame (alts f) (r :: cur f).

Definition is_repeat (r : regex) : bool :=
  match r with
  | Star _ | Plus _ | Opt _ => true
  | _ => false
  end.

Definition is_anchor (r : regex) : bool :=
  match r with
  | Bol | Eol => true
  | _ => false
  end.

Definition is_alnum_ascii (c : ascii) : bool :=
  let n := N_of_ascii c in
  ((48 <=? n) && (n <=? 57) || (65 <=? n) && (n <=? 90)
   || (97 <=? n) && (n <=? 122))%N.

(** Escapes that stand for one character: control characters by
    letter, and any escaped non-alphanumeric character for itself. *)
Definition escape_char (c : ascii) : option ascii :=
  if Ascii.eqb c "n" then Some (ascii_of_nat 10)
  else if Ascii.eqb c "t" then Some (ascii_of_nat 9)
  else if Ascii.eqb c "r" then Some (ascii_of_nat 13)
  else if Ascii.eqb c "f" then Some (ascii_of_nat 12)
  else if Ascii.eqb c "v" then Some (ascii_of_nat 11)
  else if Ascii.eqb c "a" then Some (ascii_of_nat 7)
  else if is_alnum_ascii c then None
  else Some c.

Definition escape_class (c : ascii) : option citem :=
  if Ascii.eqb c "d" then Some CDigit
  else if Ascii.eqb c "s" then Some CSpace
  else if Ascii.eqb c "D" then Some CNotDigit
  else if Ascii.eqb c "S" then Some CNotSpace
  else None.

Definition repeat_of (c : ascii) : option (regex -> regex) :=
  if Ascii.eqb c "*" then Some Star
  else if Ascii.eqb c "+" then Some Plus
  else if Ascii.eqb c "?" then Some Opt
  else None.

(** One character read outside a character set. *)
Definition step_normal (stk : list frame) (tp : frame) (c : ascii)
  : error + pstate :=
  if Ascii.eqb c "\" then inr (mkP PEscape stk tp)
  else if Ascii.eqb c "(" then inr (mkP POpen (tp :: stk) empty_frame)
  else if Ascii.eqb c ")" then
    match stk with
    | [] => inl unbalanced_parenthesis
    | f :: stk' =>
        inr (mkP PNormal stk' (push_item f (Group (close_frame tp))))
    end
  else if Ascii.eqb c "|" then
    inr (mkP PNormal stk (mkFrame (seq_of (cur tp) :: alts tp) []))
  else if Ascii.eqb c "[" then inr (mkP PSetStart stk tp)
  else if Ascii.eqb c "." then inr (mkP PNormal stk (push_item tp Dot))
  else if Ascii.eqb c "^" then inr (mkP PNormal stk (push_item tp Bol))
  else if Ascii.eqb c "$" then inr (mkP PNormal stk (push_item tp Eol))
  else if Ascii.eqb c "{" then inl unsupported
  else
    match repeat_of c with
    | Some q =>
        match cur tp with
        | [] => inl nothing_to_repeat
        | r :: rs =>
            if is_anchor r then inl nothing_to_repeat
            else if is_repeat r then
              (if Ascii.eqb c "?" then inl unsupported
               else inl multiple_repeat)
            else inr (mkP PNormal stk (mkFrame (alts tp) (q r :: rs)))
        end
    | None => inr (mkP PNormal stk (push_item tp (Lit c)))
    end.

(** One character read inside a character set. *)
Definition step_set (stk : list frame) (tp : frame)
  (neg first : bool) (items : list citem) (c : ascii) : error + pstate :=
  if Ascii.eqb c "]" then
    if first then inr (mkP (PSet neg false (CChar c :: items)) stk tp)
    else inr (mkP PNormal stk (push_item tp (CSet neg (rev items))))
  else if Ascii.eqb c "\" then inr (mkP (PSetEscape neg items) stk tp)
  else if Ascii.eqb c "-" then
    match items with
    | CChar lo :: items' =>
        if first then inr (mkP (PSet neg false (CChar c :: items)) stk tp)
        else inr (mkP (PSetDash neg items' lo) stk tp)
    | _ => inr (mkP (PSet neg false (CChar c :: items)) stk tp)
    end
  else inr (mkP (PSet neg false (CChar c :: items)) stk tp).

Definition step (st : pstate) (c : ascii) : error + pstate :=
  let stk := stack st in
  let tp := top st in
  match mode st with
  | PNormal => step_normal stk tp c
  | PEscape =>
      match escape_class c with
      | Some k => inr (mkP PNormal stk (push_item tp (CSet false [k])))
      | None =>
          match escape_char c with
          | Some l => inr (mkP PNormal stk (push_item tp (Lit l)))
          | None => inl unsupported
          end
      end
  | POpen =>
      if Ascii.eqb c "?" then inr (mkP POpenQ stk tp)
      else step_normal stk tp c
  | POpenQ =>
      if Ascii.eqb c ":" then inr (mkP PNormal stk tp) else inl unsupported
  | PSetStart =>
      if Ascii.eqb c "^" then inr (mkP (PSet true true []) stk tp)
      else step_set stk tp false true [] c
  | PSet neg first items => step_set stk tp neg first items c
  | PSetEscape neg items =>
      match escape_class c with
      | Some k => inr (mkP (PSet neg false (k :: items)) stk tp)
      | None =>
          match escape_char c with
          | Some l => inr (mkP (PSet neg false (CChar l :: items)) stk tp)
          | None => inl unsupported
          end
      end
  | PSetDash neg items lo =>
      if Ascii.eqb c "]" then
        inr (mkP PNormal stk
               (push_item tp (CSet neg (rev (CChar "-" :: CChar lo :: items)))))
      else if Ascii.eqb c "\" then inl unsupported
      else if (N_of_ascii c <? N_of_ascii lo)%N then inl bad_character_range
      else inr (mkP (PSet neg false (CRange lo c :: items)) stk tp)
  end.

Fixpoint parse (st : pstate) (p : string) : error + regex :=
  match p with
  | String c p' =>
      match step st c with
      | inl e => inl e
      | inr st' => parse st' p'
      end
  | EmptyString =>
      match mode st with
      | PNormal =>
          match stack st with
          | [] => inr (close_frame (top st))
          | _ :: _ => inl missing_parenthesis
          end
      | PEscape => inl bad_escape
      | POpen | POpenQ => inl missing_parenthesis
      | PSetStart | PSet _ _ _ | PSetEscape _ _ | PSetDash _ _ _ =>
          inl unterminated_set
      end
  end.

(** [re.compile(pattern)] *)
Definition compile (pattern : string) : error + regex :=
  parse (mkP PNormal [] empty_frame) pattern.

(** ** Matching *)

Definition citem_has (it : citem) (c : ascii) : bool :=
  match it with
  | CChar x => Ascii.eqb x c
  | CRange lo hi => ((N_of_ascii lo <=? N_of_ascii c)
                     && (N_of_ascii c <=? N_of_ascii hi))%N
  | CDigit => PyStr.is_digit c
  | CSpace => PyStr.is_space c
  | CNotDigit => negb (PyStr.is_digit c)
  | CNotSpace => negb (PyStr.is_space c)
  end.

Definition set_has (items : list citem) (c : ascii) : bool :=
  existsb (fun it => citem_has it c) items.

Definition lit_matches (flags : Z) (x c : ascii) : bool :=
  if has_flag flags I
  then Ascii.eqb (PyStr.lower x) (PyStr.lower c)
  else Ascii.eqb x c.

Definition set_matches (flags : Z) (neg : bool) (items : list citem)
  (c : ascii) : bool :=
  let hit :=
    if has_flag flags I
    then set_has items c || set_has items (PyStr.lower c)
         || set_has items (PyStr.upper c)
    else set_has items c in
  xorb neg hit.

Definition newline : ascii := ascii_of_nat 10.

(** [^]: start of the text, and with [re.M] also after a newline.
    [prev] is the character before the current position. *)
Definition at_bol (flags : Z) (prev : option ascii) : bool :=
  match prev with
  | None => true
  | Some c => has_flag flags M && Ascii.eqb c newline
  end.

(** [$]: end of the text or before a final newline, and with [re.M]
    also before any newline. *)
Definition at_eol (flags : Z) (s : string) : bool :=
  match s with
  | EmptyString => true
  | String c EmptyString => Ascii.eqb c newline
  | String c _ => has_flag flags M && Ascii.eqb c newline
  end.

(** A continuation receives the previous character and the rest of
    the text, and answers with the text left after the whole match. *)
Definition cont : Type := option ascii -> string -> option string.

(** Greedy repetition: try one more round of [body] first, and only
    a round that consumes text goes on. [n] bounds the rounds by the
    length of the text. *)
Fixpoint star_loop (body : cont -> cont) (k : cont) (n : nat)
  (prev : option ascii) (s : string) : option string :=
  match n with
  | O => k prev s
  | S n' =>
      match body (fun prev' s' =>
                    if (String.length s' <? String.length s)%nat
                    then star_loop body k n' prev' s'
                    else None) prev s with
      | Some r => Some r
      | None => k prev s
      end
  end.

(** Backtracking match of [r] at the current position: alternatives
    left to right, repetitions greedy. *)
Fixpoint m (flags : Z) (r : regex) (k : cont) (prev : option ascii)
  (s : string) {struct r} : option string :=
  match r with
  | Eps => k prev s
  | Lit x =>
      match s with
      | String c s' => if lit_matches flags x c then k (Some c) s' else None
      | EmptyString => None
      end
  | Dot =>
      match s with
      | String c s' => if Ascii.eqb c newline then None else k (Some c) s'
      | EmptyString => None
      end
  | CSet neg items =>
      match s with
      | String c s' =>
          if set_matches flags neg items c then k (Some c) s' else None
      | EmptyString => None
      end
  | Bol => if at_bol flags prev then k prev s else None
  | Eol => if at_eol flags s then k prev s else None
  | Cat r1 r2 => m flags r1 (m flags r2 k) prev s
  | Alt r1 r2 =>
      match m flags r1 k prev s with
      | Some x => Some x
      | None => m flags r2 k prev s
      end
  | Star r1 => star_loop (m flags r1) k (String.length s) prev s
  | Plus r1 =>
      m flags r1
        (fun prev' s' => star_loop (m flags r1) k (String.length s') prev' s')
        prev s
  | Opt r1 =>
      match m flags r1 k prev s with
      | Some x => Some x
      | None => k prev s
      end
  | Group r1 => m flags r1 k prev s
  end.

Definition accept : cont := fun _ rest => Some rest.

(** The match starting exactly at the current position, if any:
    the text left after it. *)
Definition match_here (flags : Z) (r : regex) (prev : option ascii)
  (s : string) : option string :=
  m flags r accept prev s.

(** Is there a match at this position or at a later one? *)
Fixpoint search_from (flags : Z) (r : regex) (prev : option ascii)
  (s : string) : bool :=
  match match_here flags r prev s with
  | Some _ => true
  | None =>
      match s with
      | String c s' => search_from flags r (Some c) s'
      | EmptyString => false
      end
  end.

(** Replace the matches found from left to right by [repl] (taken
    literally). A match that consumes nothing leaves the text as it
    is; the patterns of the drivers never match the empty string.
    [skip] counts the characters of a match still to be dropped. *)
Fixpoint sub_from (flags : Z) (r : regex) (repl : string) (skip : nat)
  (prev : option ascii) (s : string) : string :=
  match s with
  | EmptyString => EmptyString
  | String c s' =>
      match skip with
      | S k => sub_from flags r repl k (Some c) s'
      | O =>
          match match_here flags r prev s with
          | Some rest =>
              match (String.length s - String.length rest)%nat with
              | S k => repl ++ sub_from flags r repl k (Some c) s'
              | O => String c (sub_from flags r repl 0 (Some c) s')
              end
          | None => String c (sub_from flags r repl 0 (Some c) s')
          end
      end
  end.

(** [bool(re.search(pattern, text, flags))] *)
Definition search (pattern text : string) (flags : Z) : error + bool :=
  match compile pattern with
  | inl e => inl e
  | inr r => inr (search_from flags r None text)
  end.

(** [re.sub(pattern, repl, text, flags=flags)] *)
Definition sub (pattern repl text : string) (flags : Z) : error + string :=
  match compile pattern with
  | inl e => inl e
  | inr r => inr (sub_from flags r repl 0 None text)
  end.

End re.

Definition ESC : ascii := ascii_of_nat 27.
Definition LF : string := String (ascii_of_nat 10) EmptyString.
Definition CR : string := String (ascii_of_nat 13) EmptyString.
Definition DQUOTE : string := String (ascii_of_nat 34) EmptyString.

(* ================================================================== *)
(** * Exceptions, the session and the channel *)
(* ================================================================== *)

Inductive exn : Type :=
| EOFError
| socket_error
| ReadTimeout
| re_error (e : re.error)
| ValueError (msg : string)
| IndexError
| AssertionError
| NotImplementedError
| NetmikoAuthenticationException (msg : string).

Inductive result (A : Type) : Type :=
| Return (a : A)
| Raise (e : exn).

Arguments Return {A} a.
Arguments Raise {A} e.

(** What one poll of the transport yields: the text that has arrived,
    the end of the stream, or a connection-level error. *)
Inductive chunk : Type :=
| Data (text : string)
| Eof
| ConnErr.

(** What the session has done on the transport, newest first. *)
Inductive event : Type :=
| EvWrite (data : string)
| EvWriteFailed (data : string)
| EvReadUntil (pattern : string) (re_flags : Z) (r : result string)
| EvRead (r : result string)
| EvClearBuffer
| EvSleep (seconds : Q)
| EvClose
| EvWarn
| EvSessionLogFin.

(** The attributes of a connection object that a run does not change. *)
Record session : Type := mkSession {
  host : string;
  username : string;
  password : option string;
  secret : string;
  RETURN : string;
  RESPONSE_RETURN : string;
  TELNET_RETURN : string
}.

(** The transport as a scripted remote end ([incoming]: what each
    successive poll yields; [send_faults]: which successive writes hit
    a dead connection), the record of what was done, and the attributes
    the drivers assign. *)
Record state : Type := mkState {
  incoming : list chunk;
  send_faults : list bool;
  closed : bool;
  trace : list event;
  base_prompt : string;
  _session_log_fin : bool
}.

Definition set_incoming (l : list chunk) (st : state) : state :=
  mkState l (send_faults st) (closed st) (trace st) (base_prompt st)
    (_session_log_fin st).

Definition set_send_faults (l : list bool) (st : state) : state :=
  mkState (incoming st) l (closed st) (trace st) (base_prompt st)
    (_session_log_fin st).

Definition set_closed (b : bool) (st : state) : state :=
  mkState (incoming st) (send_faults st) b (trace st) (base_prompt st)
    (_session_log_fin st).

Definition log_event (e : event) (st : state) : state :=
  mkState (incoming st) (send_faults st) (closed st) (e :: trace st)
    (base_prompt st) (_session_log_fin st).

Definition set_base_prompt_attr (p : string) (st : state) : state :=
  mkState (incoming st) (send_faults st) (closed st) (trace st) p
    (_session_log_fin st).

Definition set_session_log_fin (b : bool) (st : state) : state :=
  mkState (incoming st) (send_faults st) (closed st) (trace st)
    (base_prompt st) b.

(** A freshly connected transport. *)
Definition connect (script : list chunk) (faults : list bool) : state :=
  mkState script faults false [] EmptyString false.

(** ** Computations that use the channel and may raise *)

Definition M (A : Type) : Type := state -> result A * state.

Definition ret {A : Type} (a : A) : M A := fun st => (Return a, st).

Definition raise {A : Type} (e : exn) : M A := fun st => (Raise e, st).

Definition bind {A B : Type} (c : M A) (f : A -> M B) : M B :=
  fun st =>
    match c st with
    | (Return a, st') => f a st'
    | (Raise e, st') => (Raise e, st')
    end.

Declare Scope py_scope.
Delimit Scope py_scope with py.
Notation "x <- c1 ;; c2" := (bind c1 (fun x => c2))
  (at level 61, c1 at next level, right associativity) : py_scope.
Notation "c1 ;; c2" := (bind c1 (fun _ => c2))
  (at level 61, right associativity) : py_scope.
Local Open Scope py_scope.

(** [try: body except <catches>: handler] *)
Definition try_except {A : Type} (body : M A) (catches : exn -> bool)
  (handler : M A) : M A :=
  fun st =>
    match body st with
    | (Raise e, st') => if catches e then handler st' else (Raise e, st')
    | r => r
    end.

Definition is_EOFError (e : exn) : bool :=
  match e with EOFError => true | _ => false end.

Definition is_socket_error (e : exn) : bool :=
  match e with socket_error => true | _ => false end.

(** [except Exception]: every exception of the model is one. *)
Definition is_Exception (e : exn) : bool := true.

Definition emit (e : event) : M unit := fun st => (Return tt, log_event e st).

(** [time.sleep(seconds)] *)
Definition sleep (seconds : Q) : M unit := emit (EvSleep seconds).

(** [assert x is not None] *)
Definition assert_not_none {A : Type} (x : option A) : M A :=
  match x with
  | Some a => ret a
  | None => raise AssertionError
  end.

(** A call into [re] inside a method: [re.error] propagates. *)
Definition lift_re {A : Type} (r : re.error + A) : M A :=
  match r with
  | inl e => raise (re_error e)
  | inr a => ret a
  end.

(** ** The channel primitives *)

(** Modelled from the spec: [write_channel] of base_connection, which
    is not part of the sources. "send raw bytes/text on the channel; no
    return value; may fail with a transport error". *)
Definition write_channel (data : string) : M unit :=
  fun st =>
    match send_faults st with
    | true :: fs =>
        (Raise socket_error, log_event (EvWriteFailed data) (set_send_faults fs st))
    | false :: fs =>
        (Return tt, log_event (EvWrite data) (set_send_faults fs st))
    | [] => (Return tt, log_event (EvWrite data) st)
    end.

Definition poll (c : chunk) : result string :=
  match c with
  | Data text => Return text
  | Eof => Raise EOFError
  | ConnErr => Raise socket_error
  end.

(** Modelled from the spec: [read_channel] of base_connection, which is
    not part of the sources. "non-blocking read of whatever is currently
    buffered; returns empty string if nothing pending"; the read fails
    when the transport does. *)
Definition read_channel : M string :=
  fun st =>
    match incoming st with
    | c :: rest => (poll c, log_event (EvRead (poll c)) (set_incoming rest st))
    | [] => (Return EmptyString, log_event (EvRead (Return EmptyString)) st)
    end.

(** Polls the transport until the accumulated text matches; a script
    that runs dry is the timeout. *)
Fixpoint read_until_go (flags : Z) (r : re.regex) (acc : string)
  (script : list chunk) : result string * list chunk :=
  match script with
  | [] => (Raise ReadTimeout, [])
  | Data text :: rest =>
      let acc' := acc ++ text in
      if re.search_from flags r None acc' then (Return acc', rest)
      else read_until_go flags r acc' rest
  | Eof :: rest => (Raise EOFError, rest)
  | ConnErr :: rest => (Raise socket_error, rest)
  end.

(** Modelled from the spec: [read_until_pattern] of base_connection,
    which is not part of the sources. "blocks, accumulating channel
    output, until pattern matches the accumulated buffer or timeout
    elapses; on timeout produces a timeout failure". *)
Definition read_until_pattern (pattern : string) (read_timeout : Q)
  (re_flags : Z) : M string :=
  fun st =>
    match re.compile pattern with
    | inl e =>
        (Raise (re_error e),
         log_event (EvReadUntil pattern re_flags (Raise (re_error e))) st)
    | inr r =>
        let '(res, rest) := read_until_go re_flags r EmptyString (incoming st) in
        (res, log_event (EvReadUntil pattern re_flags res) (set_incoming rest st))
    end.

(** The timeout the drivers leave to the base class. *)
Definition default_read_timeout : Q := 10.

(** Modelled from the spec: [clear_buffer] of base_connection, which is
    not part of the sources. "discards any unread buffered output": the
    text pending at this moment is dropped. *)
Definition clear_buffer : M unit :=
  fun st =>
    match incoming st with
    | Data _ :: rest => (Return tt, log_event EvClearBuffer (set_incoming rest st))
    | _ => (Return tt, log_event EvClearBuffer st)
    end.

(** [self.remote_conn.close()] *)
Definition remote_conn_close : M unit :=
  fun st => (Return tt, log_event EvClose (set_closed true st)).

(** ** The inherited methods

    The methods the drivers call on their base classes
    (CiscoBaseConnection, CiscoSSHConnection) are not part of the
    sources: a driver is modelled over any implementation of them. A
    keyword argument the caller leaves to its default is [None]. *)
Class CiscoBaseConnection : Type := {
  select_delay_factor : Q -> Q;
  super_strip_ansi_escape_codes : string -> string;
  super_config_mode : string -> string -> Z -> M string;
  super_exit_config_mode : option string -> option string -> M string;
  super_check_config_mode : option string -> option string -> M bool;
  check_enable_mode : M bool;
  _send_command_str : string -> bool -> bool -> Q -> string -> M string
}.

(* ================================================================== *)
(** * huawei.py *)
(* ================================================================== *)

Module Huawei.
Section Driver.
Context {base : CiscoBaseConnection}.
Variable self : session.

(** ** class HuaweiBase *)

(** [HuaweiBase.strip_ansi_escape_codes]: a [re.error] cannot occur,
    the pattern is a constant that compiles. *)
Definition strip_ansi_escape_codes (string_buffer : string) : string :=
  let code_cursor_left := String ESC "\[\d+D" in
  let output := string_buffer in
  let pattern := " " ++ code_cursor_left in
  let output :=
    match re.sub pattern "" output 0 with
    | inr o => o
    | inl _ => output
    end in
  super_strip_ansi_escape_codes output.

Definition config_mode (config_command pattern : string) (re_flags : Z)
  : M string :=
  super_config_mode config_command pattern re_flags.

Definition exit_config_mode (exit_config pattern : string) : M string :=
  super_exit_config_mode (Some exit_config) (Some pattern).

Definition check_config_mode (check_string pattern : string) : M bool :=
  super_check_config_mode (Some check_string) None.

(** [HuaweiBase.set_base_prompt] *)
Definition set_base_prompt (pri_prompt_terminator alt_prompt_terminator : string)
  (delay_factor : Q) : M string :=
  let delay_factor := select_delay_factor delay_factor in
  clear_buffer ;;
  write_channel (RETURN self) ;;
  sleep ((5 # 10) * delay_factor) ;;
  prompt <- read_channel ;;
  (* If multiple lines in the output take the last line *)
  pieces <- match PyStr.split prompt (RESPONSE_RETURN self) with
            | Some l => ret l
            | None => raise (ValueError "empty separator")
            end ;;
  prompt <- match PyStr.last_item pieces with
            | Some p => ret p
            | None => raise IndexError
            end ;;
  let prompt := PyStr.strip prompt in
  (* Check that ends with a valid terminator character *)
  last <- match PyStr.last_char prompt with
          | Some c => ret c
          | None => raise IndexError
          end ;;
  if negb (String.eqb last pri_prompt_terminator
           || String.eqb last alt_prompt_terminator)
  then raise (ValueError ("Router prompt not found: " ++ prompt))
  else
    (* Strip off any leading HRP_. characters for USGv5 HA *)
    prompt <- lift_re (re.sub "^HRP_." "" prompt re.M) ;;
    (* Strip off leading and trailing terminator *)
    let prompt := PyStr.slice prompt 1 (-1) in
    let prompt := PyStr.strip prompt in
    (fun st => (Return tt, set_base_prompt_attr prompt st)) ;;
    ret prompt.

(** ** class HuaweiSSH *)

(** [HuaweiSSH.special_login_handler] *)
Definition special_login_handler (delay_factor : Q) : M unit :=
  (* Huawei can prompt for password change. Search for that or for normal prompt *)
  let password_change_prompt := "((Change now|Please choose))|([\]>]\s*$)" in
  output <- read_until_pattern password_change_prompt default_read_timeout 0 ;;
  found <- lift_re (re.search password_change_prompt output 0) ;;
  (if found : bool
   then write_channel ("N" ++ LF) ;; clear_buffer
   else ret tt) ;;
  ret tt.

(** ** class HuaweiTelnet *)

(** [re.search(pri, output, flags=re.M) or re.search(alt, output, flags=re.M)]:
    the second search runs only when the first finds nothing. *)
Definition prompt_found (pri_prompt_terminator alt_prompt_terminator
                           output : string) : M bool :=
  a <- lift_re (re.search pri_prompt_terminator output re.M) ;;
  if a : bool then ret true
  else lift_re (re.search alt_prompt_terminator output re.M).

Definition login_failed : M (string + string) :=
  remote_conn_close ;;
  raise (NetmikoAuthenticationException ("Login failed: " ++ host self)).

(** The body of the [try] in the loop of [telnet_login]: [inl] is the
    transcript the method returns with, [inr] the transcript carried
    to the next round. *)
Definition login_attempt (pri_prompt_terminator alt_prompt_terminator
                            username_pattern pwd_pattern : string)
  (delay_factor : Q) (password_change_prompt combined_pattern : string)
  (return_msg : string) : M (string + string) :=
  (* Search for username pattern / send username *)
  output <- read_until_pattern username_pattern default_read_timeout re.I ;;
  let return_msg := return_msg ++ output in
  write_channel (username self ++ TELNET_RETURN self) ;;
  (* Search for password pattern / send password *)
  output <- read_until_pattern pwd_pattern default_read_timeout re.I ;;
  let return_msg := return_msg ++ output in
  pw <- assert_not_none (password self) ;;
  write_channel (pw ++ TELNET_RETURN self) ;;
  (* Waiting for combined output *)
  output <- read_until_pattern combined_pattern default_read_timeout 0 ;;
  let return_msg := return_msg ++ output in
  (* Search for password change prompt, send "N" *)
  change <- lift_re (re.search password_change_prompt output 0) ;;
  both <- (if change : bool
           then
             write_channel ("N" ++ TELNET_RETURN self) ;;
             output <- read_until_pattern combined_pattern default_read_timeout 0 ;;
             ret (output, return_msg ++ output)
           else ret (output, return_msg)) ;;
  let '(output, return_msg) := both in
  (* Check if proper data received *)
  ok <- prompt_found pri_prompt_terminator alt_prompt_terminator output ;;
  if ok : bool then ret (inl return_msg)
  else
    write_channel (TELNET_RETURN self) ;;
    sleep ((5 # 10) * delay_factor) ;;
    ret (inr return_msg).

(** [while i <= max_loops] with [i] counting up from 1: [remaining]
    is the number of rounds still allowed. *)
Fixpoint login_loop (remaining : nat)
  (pri_prompt_terminator alt_prompt_terminator
     username_pattern pwd_pattern : string)
  (delay_factor : Q) (password_change_prompt combined_pattern : string)
  (return_msg : string) : M (string + string) :=
  match remaining with
  | O => ret (inr return_msg)
  | S n =>
      r <- try_except
             (login_attempt pri_prompt_terminator alt_prompt_terminator
                username_pattern pwd_pattern delay_factor
                password_change_prompt combined_pattern return_msg)
             is_EOFError login_failed ;;
      match r with
      | inl msg => ret (inl msg)
      | inr return_msg =>
          login_loop n pri_prompt_terminator alt_prompt_terminator
            username_pattern pwd_pattern delay_factor
            password_change_prompt combined_pattern return_msg
      end
  end.

(** [HuaweiTelnet.telnet_login] *)
Definition telnet_login (pri_prompt_terminator alt_prompt_terminator
                           username_pattern pwd_pattern : string)
  (delay_factor : Q) (max_loops : Z) : M string :=
  let delay_factor := select_delay_factor delay_factor in
  let password_change_prompt := "(Change now|Please choose 'YES' or 'NO').+" in
  let combined_pattern :=
    "(" ++ pri_prompt_terminator ++ "|" ++ alt_prompt_terminator ++ "|"
        ++ password_change_prompt ++ ")" in
  r <- login_loop (Z.to_nat max_loops)
         pri_prompt_terminator alt_prompt_terminator
         username_pattern pwd_pattern delay_factor
         password_change_prompt combined_pattern EmptyString ;;
  match r with
  | inl return_msg => ret return_msg
  | inr return_msg =>
      (* Last try to see if we already logged in *)
      write_channel (TELNET_RETURN self) ;;
      sleep ((5 # 10) * delay_factor) ;;
      output <- read_channel ;;
      let return_msg := return_msg ++ output in
      ok <- prompt_found pri_prompt_terminator alt_prompt_terminator output ;;
      if ok : bool then ret return_msg
      else
        remote_conn_close ;;
        raise (NetmikoAuthenticationException ("Login failed: " ++ host self))
  end.

(** The defaults of [telnet_login]'s keyword arguments. *)
Definition default_pri_prompt_terminator : string := "]\s*$".
Definition default_alt_prompt_terminator : string := ">\s*$".
Definition default_username_pattern : string :=
  "(?:user:|username|login|user name)".
Definition default_pwd_pattern : string := "assword".
Definition default_max_loops : Z := 20.

(** ** class HuaweiVrpv8SSH *)

Definition error_marker : string := "Failed to generate committed config".

(** [HuaweiVrpv8SSH.commit]: [config_mode()] and [exit_config_mode()]
    are called with the defaults HuaweiBase gives them. *)
Definition commit (comment : string) (read_timeout : Q)
  (delay_factor : option Q) : M string :=
  (match delay_factor with
   | Some _ => emit EvWarn
   | None => ret tt
   end) ;;
  let command_string := "commit" in
  let command_string :=
    if String.eqb comment EmptyString then command_string
    else command_string ++ " comment " ++ DQUOTE ++ comment ++ DQUOTE in
  output <- config_mode "system-view" EmptyString 0 ;;
  o2 <- _send_command_str command_string false false read_timeout "]" ;;
  let output := output ++ o2 in
  o3 <- exit_config_mode "return" ">" ;;
  let output := output ++ o3 in
  if PyStr.contains error_marker output
  then raise (ValueError ("Commit failed with following errors:" ++ LF ++ LF
                          ++ output))
  else ret output.

(** [HuaweiVrpv8SSH.save_config] *)
Definition save_config : M string := raise NotImplementedError.

End Driver.
End Huawei.

(* ================================================================== *)
(** * hp_procurve.py *)
(* ================================================================== *)

Module HPProcurve.
Section Driver.
Context {base : CiscoBaseConnection}.
Variable self : session.

(** [HPProcurveBase.enable] *)
Definition enable (cmd pattern : string) (enable_pattern : option string)
  (re_flags : Z) (default_username : string) : M string :=
  already <- check_enable_mode ;;
  if already : bool then ret EmptyString
  else
    let output := EmptyString in
    let username_pattern := "(username|login|user name)" in
    let pwd_pattern := pattern in
    let prompt_pattern := "[>#]" in
    let full_pattern :=
      "(username|login|user name|" ++ pwd_pattern ++ "|" ++ prompt_pattern ++ ")" in
    (* Send the enable command *)
    write_channel (cmd ++ RETURN self) ;;
    new_output <- read_until_pattern full_pattern 15 re_flags ;;
    (* Send the username *)
    asked_user <- lift_re (re.search username_pattern new_output re_flags) ;;
    both <- (if asked_user : bool
             then
               let output := output ++ new_output in
               write_channel (default_username ++ RETURN self) ;;
               let full_pattern := pwd_pattern ++ "|" ++ prompt_pattern ++ ")" in
               new_output <- read_until_pattern full_pattern 15 re_flags ;;
               ret (output, new_output)
             else ret (output, new_output)) ;;
    let '(output, new_output) := both in
    (* Send the password *)
    asked_pwd <- lift_re (re.search pwd_pattern new_output re_flags) ;;
    both <- (if asked_pwd : bool
             then
               let output := output ++ new_output in
               write_channel (secret self ++ RETURN self) ;;
               new_output <- read_until_pattern prompt_pattern 15 re_flags ;;
               ret (output, new_output)
             else ret (output, new_output)) ;;
    let '(output, new_output) := both in
    let output := output ++ new_output in
    clear_buffer ;;
    let msg := "Failed to enter enable mode. Please ensure you pass "
               ++ "the 'secret' argument to ConnectHandler." in
    now_enabled <- check_enable_mode ;;
    if negb now_enabled then raise (ValueError msg)
    else ret output.

(** The defaults of [enable]'s keyword arguments. *)
Definition default_cmd : string := "enable".
Definition default_pattern : string := "password".
Definition default_username : string := "manager".

Inductive loop_control : Type := Continue | Break.

(** One round of the [while] loop of [cleanup]. *)
Definition cleanup_round (output : string) : M (loop_control * string) :=
  sleep (3 # 10) ;;
  (* The connection might be dead here. *)
  r <- try_except
         (new_output <- read_channel ;; ret (Some new_output))
         is_socket_error (ret None) ;;
  match r with
  | None => ret (Break, output)
  | Some new_output =>
      let output := output ++ new_output in
      if PyStr.contains "Do you want to log out" new_output
      then write_channel ("y" ++ RETURN self) ;; ret (Continue, output)
      else if PyStr.contains "Do you want to save the current" new_output
      then
        (* Don't automatically save the config (user's responsibility) *)
        write_channel ("n" ++ RETURN self) ;; ret (Continue, output)
      else
        try_except (write_channel (RETURN self) ;; ret (Continue, output))
          is_socket_error (ret (Break, output))
  end.

(** [while count <= 10] with [count] counting up from 0:
    [remaining] is the number of rounds still allowed. *)
Fixpoint cleanup_loop (remaining : nat) (output : string) : M unit :=
  match remaining with
  | O => ret tt
  | S n =>
      r <- cleanup_round output ;;
      match r with
      | (Break, _) => ret tt
      | (Continue, output) => cleanup_loop n output
      end
  end.

(** The values 0..10 of [count]. *)
Definition cleanup_rounds : nat := Z.to_nat (10 - 0 + 1).

(** [HPProcurveBase.cleanup] *)
Definition cleanup (command : string) : M unit :=
  (* Exit configuration mode. *)
  try_except
    (in_config <- super_check_config_mode None (Some EmptyString) ;;
     if in_config : bool
     then super_exit_config_mode None None ;; ret tt
     else ret tt)
    is_Exception (ret tt) ;;
  (* Terminate SSH/telnet session *)
  write_channel (command ++ RETURN self) ;;
  cleanup_loop cleanup_rounds EmptyString ;;
  (* Set outside of loop *)
  (fun st => (Return tt, log_event EvSessionLogFin (set_session_log_fin true st))).

Definition default_command : string := "logout".

End Driver.
End HPProcurve.

(* ================================================================== *)
(** * Reading a run off the trace *)
(* ================================================================== *)


(** The data of the writes a run attempted, newest first. *)
Fixpoint writes_of (tr : list event) : list string :=
  match tr with
  | [] => []
  | EvWrite d :: tr' => d :: writes_of tr'
  | EvWriteFailed d :: tr' => d :: writes_of tr'
  | _ :: tr' => writes_of tr'
  end.





Definition is_sleep (e : event) : bool :=
  match e with
  | EvSleep _ => true
  | _ => false
  end.

Definition count_sleeps (tr : list event) : nat :=
  List.length (filter is_sleep tr).

(** The check [telnet_login] makes on an output, outside the monad. *)
Definition terminator_found (pri_prompt_terminator alt_prompt_terminator
                               output : string) : re.error + bool :=
  match re.search pri_prompt_terminator output re.M with
  | inl e => inl e
  | inr true => inr true
  | inr false => re.search alt_prompt_terminator output re.M
  end.



(** The output of the latest read that returned. *)
Fixpoint last_read_output (tr : list event) : option string :=
  match tr with
  | [] => None
  | EvReadUntil _ _ (Return out) :: _ => Some out
  | EvRead (Return out) :: _ => Some out
  | _ :: tr' => last_read_output tr'
  end.

Definition count_session_log_fin (tr : list event) : nat :=
  List.length (filter (fun e => match e with EvSessionLogFin => true | _ => false end) tr).

(** Strings made of whitespace only, and strings without a given character. *)
Fixpoint all_space (s : string) : bool :=
  match s with
  | EmptyString => true
  | String c s' => PyStr.is_space c && all_space s'
  end.

Fixpoint has_char (x : ascii) (s : string) : bool :=
  match s with
  | EmptyString => false
  | String c s' => Ascii.eqb c x || has_char x s'
  end.

(* ================================================================== *)
(** * An implementation of the inherited methods, to run the drivers *)
(* ================================================================== *)

(** Modelled from the spec: the generic escape-code stripper of
    base_connection, which is not part of the sources. "the generic
    stripper alone leaves a stray space": it removes the cursor-left
    escape sequence, ESC [ digits D, and keeps the rest of the text. *)
Definition generic_strip_ansi_escape_codes (string_buffer : string) : string :=
  match re.sub (String ESC "\[\d+D") "" string_buffer 0 with
  | inr o => o
  | inl _ => string_buffer
  end.

(** The inherited methods on a scripted channel: each sends its command
    and returns what the channel has pending; the mode checks look for
    the terminator of the mode in the answer to a bare return. *)
Definition ScriptedBase (self : session) : CiscoBaseConnection := {|
  select_delay_factor := fun d => d;
  super_strip_ansi_escape_codes := generic_strip_ansi_escape_codes;
  super_config_mode := fun config_command _ _ =>
    write_channel (config_command ++ RETURN self) ;; read_channel;
  super_exit_config_mode := fun exit_config _ =>
    write_channel (match exit_config with Some c => c | None => "exit" end
                   ++ RETURN self) ;;
    read_channel;
  super_check_config_mode := fun check_string _ =>
    write_channel (RETURN self) ;;
    out <- read_channel ;;
    ret (PyStr.contains (match check_string with Some c => c | None => ")#" end) out);
  check_enable_mode :=
    write_channel (RETURN self) ;;
    out <- read_channel ;;
    ret (PyStr.contains "#" out);
  _send_command_str := fun command_string _ _ _ _ =>
    write_channel (command_string ++ RETURN self) ;; read_channel
|}.

(** A session with the line terminators the base class defaults to. *)
Definition example_session : session :=
  mkSession "192.0.2.1" "admin" (Some "pw") "s3cret" LF LF (CR ++ LF).

(* ================================================================== *)
(** * Vocabulary of the statements *)
(* ================================================================== *)

(** The command [commit] sends. *)
Definition commit_command (comment : string) : string :=
  if String.eqb comment EmptyString then "commit"
  else "commit comment " ++ DQUOTE ++ comment ++ DQUOTE.

(** The state in which [commit] enters configuration mode: a
    [delay_factor] only adds the deprecation warning. *)
Definition after_warning (delay_factor : option Q) (st : state) : state :=
  match delay_factor with
  | Some _ => log_event EvWarn st
  | None => st
  end.

(** The channel operations [set_base_prompt] starts with. *)
Definition read_prompt {base : CiscoBaseConnection} (self : session)
  (delay_factor : Q) : M string :=
  clear_buffer ;;
  write_channel (RETURN self) ;;
  sleep ((5 # 10) * select_delay_factor delay_factor) ;;
  read_channel.

(** What [set_base_prompt] makes of the text it has read. *)
Definition prompt_of_text (self : session)
  (pri_prompt_terminator alt_prompt_terminator text : string) : result string :=
  match PyStr.split text (RESPONSE_RETURN self) with
  | None => Raise (ValueError "empty separator")
  | Some pieces =>
      match PyStr.last_item pieces with
      | None => Raise IndexError
      | Some line =>
          match PyStr.last_char (PyStr.strip line) with
          | None => Raise IndexError
          | Some last =>
              if negb (String.eqb last pri_prompt_terminator
                       || String.eqb last alt_prompt_terminator)
              then Raise (ValueError ("Router prompt not found: "
                                      ++ PyStr.strip line))
              else
                match re.sub "^HRP_." "" (PyStr.strip line) re.M with
                | inl e => Raise (re_error e)
                | inr prompt => Return (PyStr.strip (PyStr.slice prompt 1 (-1)))
                end
          end
      end
  end.

(** The patterns the drivers hand to [re], compiled. *)
Definition ha_prefix_regex : re.regex :=
  Eval vm_compute in
    match re.compile "^HRP_." with inr r => r | inl _ => re.Eps end.

Definition space_cursor_left_regex : re.regex :=
  Eval vm_compute in
    match re.compile (" " ++ String ESC "\[\d+D") with
    | inr r => r
    | inl _ => re.Eps
    end.

Definition cursor_left_regex : re.regex :=
  Eval vm_compute in
    match re.compile (String ESC "\[\d+D") with
    | inr r => r
    | inl _ => re.Eps
    end.

Definition ssh_login_pattern : string :=
  "((Change now|Please choose))|([\]>]\s*$)".

Definition ssh_login_regex : re.regex :=
  Eval vm_compute in
    match re.compile ssh_login_pattern with inr r => r | inl _ => re.Eps end.

(** The exception [telnet_login] raises when the login fails. *)
Definition login_failure (self : session) : exn :=
  NetmikoAuthenticationException ("Login failed: " ++ host self).

Definition is_login_failure (e : exn) : bool :=
  match e with
  | NetmikoAuthenticationException _ => true
  | _ => false
  end.


(** The pattern [telnet_login] builds for its third read. *)
Definition password_change_prompt : string :=
  "(Change now|Please choose 'YES' or 'NO').+".

Definition combined_pattern (pri alt : string) : string :=
  "(" ++ pri ++ "|" ++ alt ++ "|" ++ password_change_prompt ++ ")".



Definition password_change_regex : re.regex :=
  Eval vm_compute in
    match re.compile password_change_prompt with
    | inr r => r
    | inl _ => re.Eps
    end.











(** How the teardown loop can be left by an exception: a confirmation
    answer that could not be sent, or a read that met the end of the
    stream. *)
Definition round_escape (self : session) (e : exn) (tr : list event) : Prop :=
  (e = socket_error
   /\ (hd_error tr = Some (EvWriteFailed ("y" ++ RETURN self))
       \/ hd_error tr = Some (EvWriteFailed ("n" ++ RETURN self))))
  \/ (e = EOFError /\ hd_error tr = Some (EvRead (Raise EOFError))).

(** The first step of [cleanup]: leave configuration mode, whatever
    happens. *)
Definition leave_config_mode {base : CiscoBaseConnection} : M unit :=
  try_except
    (in_config <- super_check_config_mode None (Some EmptyString) ;;
     if in_config : bool
     then super_exit_config_mode None None ;; ret tt
     else ret tt)
    is_Exception (ret tt).


(* ================================================================== *)
(** * Vocabulary of further statements *)
(* ================================================================== *)

(** [line] is the last line of [text]: the whole text, or what follows
    its last newline. *)
Definition last_line_is (text line : string) : Prop :=
  has_char re.newline line = false
  /\ (text = line \/ exists before, text = before ++ LF ++ line).

(** Strings made of decimal digits only. *)
Fixpoint all_digits (s : string) : bool :=
  match s with
  | EmptyString => true
  | String c s' => PyStr.is_digit c && all_digits s'
  end.

(** The blocking reads of a run. *)
Definition is_blocking_read (e : event) : bool :=
  match e with
  | EvReadUntil _ _ _ => true
  | _ => false
  end.

Definition count_blocking_reads (tr : list event) : nat :=
  List.length (filter is_blocking_read tr).

(** The reads of a run, blocking or not. *)
Definition is_read (e : event) : bool :=
  match e with
  | EvReadUntil _ _ _ | EvRead _ => true
  | _ => false
  end.

Definition count_reads (tr : list event) : nat :=
  List.length (filter is_read tr).

(** The cursor-left artifact: a space, then ESC [ digits D. *)
Definition cursor_left_artifact (digits : string) : string :=
  " " ++ String ESC ("[" ++ digits ++ "D").

(** The final probe of [telnet_login], as the method runs it once the
    rounds are used up. *)
Definition final_probe {base : CiscoBaseConnection} (self : session)
  (pri alt : string) (delay_factor : Q) (return_msg : string) : M string :=
  write_channel (TELNET_RETURN self) ;;
  sleep ((5 # 10) * select_delay_factor delay_factor) ;;
  output <- read_channel ;;
  ok <- Huawei.prompt_found pri alt output ;;
  if ok : bool then ret (return_msg ++ output)
  else
    remote_conn_close ;;
    raise (NetmikoAuthenticationException ("Login failed: " ++ host self)).

(** What [cleanup] does once configuration mode is left. *)
Definition logout_and_finalize (self : session) (command : string) : M unit :=
  write_channel (command ++ RETURN self) ;;
  HPProcurve.cleanup_loop self HPProcurve.cleanup_rounds EmptyString ;;
  (fun st => (Return tt, log_event EvSessionLogFin (set_session_log_fin true st))).

(** What a round of the login loop, or the loop, costs and leaves:
    at most [4 * rounds] blocking reads and as many writes, and the
    transport closed exactly when the login failure is raised. *)
Definition login_budget (self : session) (rounds : nat) (st : state)
  (run : result (string + string) * state) : Prop :=
  let st' := snd run in
  (count_blocking_reads (trace st')
   <= count_blocking_reads (trace st) + 4 * rounds)%nat
  /\ (List.length (writes_of (trace st'))
      <= List.length (writes_of (trace st)) + 4 * rounds)%nat
  /\ match fst run with
     | Raise e =>
         if is_login_failure e
         then e = login_failure self /\ closed st' = true
         else closed st' = closed st
     | Return _ => closed st' = closed st
     end.

(** A computation that returns only in a state in which the mode check
    has just answered True. *)
Definition ends_privileged {base : CiscoBaseConnection} {A : Type}
  (c : M A) : Prop :=
  forall st a st',
    c st = (Return a, st') ->
    exists st0, check_enable_mode st0 = (Return true, st').



(* ================================================================== *)
(** * Facts about the Python layer *)
(* ================================================================== *)

Section StringFacts.


Lemma append_assoc (a b c : string) : (a ++ b) ++ c = a ++ (b ++ c).
Proof. induction a as [|x a IH]; simpl; [reflexivity | now rewrite IH]. Qed.

Lemma length_append (a b : string) :
  String.length (a ++ b) = (String.length a + String.length b)%nat.
Proof. induction a as [|x a IH]; simpl; [reflexivity | now rewrite IH]. Qed.

Lemma prefix_refl (s : string) : prefix s s = true.
Proof.
  induction s as [|c s IH]; simpl; [reflexivity|].
  destruct (ascii_dec c c); [assumption | congruence].
Qed.

Lemma prefix_append (a b : string) : prefix a (a ++ b) = true.
Proof.
  induction a as [|c a IH]; simpl; [now destruct b|].
  destruct (ascii_dec c c); [assumption | congruence].
Qed.

(** [sub in s] holds when [sub] starts anywhere in [s]. *)
Lemma contains_append_r (sub a b : string) :
  PyStr.contains sub b = true -> PyStr.contains sub (a ++ b) = true.
Proof.
  induction a as [|c a IH]; simpl; intros H; [assumption|].
  rewrite (IH H). apply orb_true_r.
Qed.

Lemma contains_here (sub rest : string) :
  PyStr.contains sub (sub ++ rest) = true.
Proof.
  destruct sub as [|c sub]; [now destruct rest|].
  cbn [append PyStr.contains].
  change (String c (sub ++ rest)) with (String c sub ++ rest).
  now rewrite prefix_append.
Qed.

End StringFacts.

(* ================================================================== *)
(** * Facts about the monad and the channel *)
(* ================================================================== *)

Section MonadFacts.

Lemma bind_Return {A B : Type} (c : M A) (f : A -> M B) st a st' :
  c st = (Return a, st') -> bind c f st = f a st'.
Proof. unfold bind. now intros ->. Qed.

Lemma bind_Raise {A B : Type} (c : M A) (f : A -> M B) st e st' :
  c st = (Raise e, st') -> bind c f st = (Raise e, st').
Proof. unfold bind. now intros ->. Qed.

Lemma bind_assoc {A B C : Type} (c : M A) (f : A -> M B) (g : B -> M C) st :
  bind (bind c f) g st = bind c (fun a => bind (f a) g) st.
Proof. unfold bind. destruct (c st) as [[a|e] st']; reflexivity. Qed.

Lemma bind_ret_unit (c : M unit) st : bind c (fun _ => ret tt) st = c st.
Proof. unfold bind, ret. now destruct (c st) as [[[]|e] st']. Qed.

End MonadFacts.

Section ChannelFacts.

(** Each primitive adds one event and leaves [closed] as it is. *)
Lemma write_channel_shape (data : string) (st : state) :
  exists st',
    closed st' = closed st /\
    ((write_channel data st = (Return tt, st')
      /\ trace st' = EvWrite data :: trace st)
     \/ (write_channel data st = (Raise socket_error, st')
         /\ trace st' = EvWriteFailed data :: trace st)).
Proof.
  unfold write_channel.
  destruct (send_faults st) as [|[|] fs]; eexists; (split; [|eauto]);
    reflexivity.
Qed.

Lemma read_until_go_not_login_failure flags r script :
  forall acc e rest,
    read_until_go flags r acc script = (Raise e, rest) ->
    is_login_failure e = false.
Proof.
  induction script as [|[text| |] script IH]; intros acc e rest H;
    cbn [read_until_go] in H.
  - now inversion H.
  - destruct (re.search_from flags r None (acc ++ text)); [discriminate|].
    eapply IH, H.
  - now inversion H.
  - now inversion H.
Qed.

Lemma read_until_pattern_shape pattern read_timeout flags (st : state) :
  exists r st',
    read_until_pattern pattern read_timeout flags st = (r, st')
    /\ closed st' = closed st
    /\ trace st' = EvReadUntil pattern flags r :: trace st
    /\ (forall e, r = Raise e -> is_login_failure e = false).
Proof.
  unfold read_until_pattern.
  destruct (re.compile pattern) as [e|r].
  - do 2 eexists. repeat split. now intros e' [= <-].
  - destruct (read_until_go flags r EmptyString (incoming st))
      as [res rest] eqn:E.
    do 2 eexists. repeat split. intros e ->.
    eapply read_until_go_not_login_failure, E.
Qed.

Lemma read_channel_shape (st : state) :
  exists r st',
    read_channel st = (r, st')
    /\ closed st' = closed st
    /\ trace st' = EvRead r :: trace st
    /\ (forall e, r = Raise e -> is_login_failure e = false).
Proof.
  unfold read_channel.
  destruct (incoming st) as [|[text| |] rest]; do 2 eexists;
    repeat split; now intros e [= <-].
Qed.

Lemma prompt_found_spec (pri alt output : string) (st : state) :
  Huawei.prompt_found pri alt output st
  = (match terminator_found pri alt output with
     | inl e => Raise (re_error e)
     | inr b => Return b
     end, st).
Proof.
  unfold Huawei.prompt_found, terminator_found, bind, lift_re.
  destruct (re.search pri output re.M) as [e|[|]]; cbn; try reflexivity.
  destruct (re.search alt output re.M); reflexivity.
Qed.

Lemma password_change_search (output : string) :
  exists b, re.search password_change_prompt output 0 = inr b.
Proof.
  exists (re.search_from 0 password_change_regex None output).
  unfold re.search.
  replace (re.compile password_change_prompt) with
    (inr password_change_regex : re.error + re.regex)
    by (vm_compute; reflexivity).
  reflexivity.
Qed.

(** [try] around a sequence: the first step either goes on inside the
    [try] or raises into it. *)
Lemma try_except_bind {A B : Type} (c : M A) (f : A -> M B)
  (catches : exn -> bool) (handler : M B) (st : state) :
  try_except (bind c f) catches handler st
  = match c st with
    | (Return a, st') => try_except (f a) catches handler st'
    | (Raise e, st') => if catches e then handler st' else (Raise e, st')
    end.
Proof.
  unfold try_except, bind. destruct (c st) as [[a|e] st']; reflexivity.
Qed.


Lemma try_except_bind_assoc {A B C : Type} (c : M A) (f : A -> M B)
  (g : B -> M C) (catches : exn -> bool) (handler : M C) (st : state) :
  try_except (bind (bind c f) g) catches handler st
  = try_except (bind c (fun a => bind (f a) g)) catches handler st.
Proof.
  unfold try_except, bind. destruct (c st) as [[a|e] st']; reflexivity.
Qed.

Lemma try_except_ret {A : Type} (a : A) (catches : exn -> bool)
  (handler : M A) (st : state) :
  try_except (ret a) catches handler st = (Return a, st).
Proof. reflexivity. Qed.

End ChannelFacts.

(* ================================================================== *)
(** * PromptNormalizer: [HuaweiBase.set_base_prompt] *)
(* ================================================================== *)

Section SplitFacts.

Lemma prefix_LF (c : ascii) (s : string) :
  prefix LF (String c s) = Ascii.eqb c re.newline.
Proof.
  unfold LF. cbn [prefix]. fold re.newline.
  destruct (ascii_dec re.newline c) as [<-|n].
  - rewrite Ascii.eqb_refl. now destruct s.
  - symmetry. apply Ascii.eqb_neq. congruence.
Qed.

Lemma split_go_nonempty (sep : string) (skip : nat) (s : string) :
  PyStr.split_go sep skip s <> [].
Proof.
  revert skip.
  induction s as [|c s IH]; intros skip; cbn [PyStr.split_go]; [discriminate|].
  destruct skip; [|apply IH].
  destruct (prefix sep (String c s)); [discriminate|].
  destruct (PyStr.split_go sep 0 s); discriminate.
Qed.

Lemma split_go_LF_step (c : ascii) (s : string) :
  PyStr.split_go LF 0 (String c s) =
    if Ascii.eqb c re.newline then EmptyString :: PyStr.split_go LF 0 s
    else match PyStr.split_go LF 0 s with
         | piece :: rest => String c piece :: rest
         | [] => [String c EmptyString]
         end.
Proof.
  cbn [PyStr.split_go]. rewrite prefix_LF. reflexivity.
Qed.

(** A text without newline is one line. *)
Lemma split_go_one_line (s : string) :
  has_char re.newline s = false -> PyStr.split_go LF 0 s = [s].
Proof.
  induction s as [|c s IH]; intros H; [reflexivity|].
  cbn [has_char] in H. apply orb_false_elim in H as [Hc Hs].
  rewrite split_go_LF_step, Hc, (IH Hs). reflexivity.
Qed.

(** Splitting on newlines distributes over a newline. *)
Lemma split_go_LF_append (a b : string) :
  PyStr.split_go LF 0 (a ++ String re.newline b)
  = (PyStr.split_go LF 0 a ++ PyStr.split_go LF 0 b)%list.
Proof.
  induction a as [|x a IH].
  - cbn [append]. rewrite split_go_LF_step, Ascii.eqb_refl. reflexivity.
  - cbn [append]. rewrite !split_go_LF_step, IH.
    destruct (Ascii.eqb x re.newline); [reflexivity|].
    destruct (PyStr.split_go LF 0 a) as [|p r] eqn:E; [|reflexivity].
    now apply split_go_nonempty in E.
Qed.

Lemma last_item_app {A : Type} (l1 l2 : list A) :
  l2 <> [] -> PyStr.last_item (l1 ++ l2) = PyStr.last_item l2.
Proof.
  intros H. unfold PyStr.last_item. rewrite rev_app_distr.
  destruct (rev l2) as [|x r] eqn:E; [|reflexivity].
  apply (f_equal (@rev A)) in E. rewrite rev_involutive in E. now subst.
Qed.

(** The last line of a text is the last line of what follows a newline. *)
Lemma last_line_after_newline (a b : string) :
  PyStr.last_item (PyStr.split_go LF 0 (a ++ String re.newline b))
  = PyStr.last_item (PyStr.split_go LF 0 b).
Proof.
  rewrite split_go_LF_append. apply last_item_app, split_go_nonempty.
Qed.

Lemma has_char_append (x : ascii) (a b : string) :
  has_char x (a ++ b) = has_char x a || has_char x b.
Proof.
  induction a as [|c a IH]; [reflexivity|].
  cbn [append has_char]. now rewrite IH, orb_assoc.
Qed.

End SplitFacts.

Section StripFacts.

Lemma rstrip_end (x : string) (z : ascii) :
  PyStr.is_space z = false ->
  PyStr.rstrip (x ++ String z EmptyString) = x ++ String z EmptyString.
Proof.
  intros Hz. induction x as [|c x IH].
  - cbn. now rewrite Hz.
  - cbn [append PyStr.rstrip]. rewrite IH.
    destruct x; reflexivity.
Qed.

(** A text that neither starts nor ends with whitespace is its own strip. *)
Lemma strip_framed (a z : ascii) (mid : string) :
  PyStr.is_space a = false -> PyStr.is_space z = false ->
  PyStr.strip (String a (mid ++ String z EmptyString))
  = String a (mid ++ String z EmptyString).
Proof.
  intros Ha Hz. unfold PyStr.strip. cbn [PyStr.lstrip]. rewrite Ha.
  change (String a (mid ++ String z EmptyString))
    with (String a mid ++ String z EmptyString).
  now apply rstrip_end.
Qed.

Lemma last_char_end (x : string) (z : ascii) :
  PyStr.last_char (x ++ String z EmptyString) = Some (String z EmptyString).
Proof.
  induction x as [|c x IH]; [reflexivity|].
  cbn [append PyStr.last_char]. rewrite IH.
  destruct x; reflexivity.
Qed.

Lemma substring_0_append (a b : string) :
  substring 0 (String.length a) (a ++ b) = a.
Proof.
  induction a as [|c a IH]; cbn; [now destruct b | now rewrite IH].
Qed.

(** [s[1:-1]] drops the first and the last character. *)
Lemma slice_inner (a z : ascii) (mid : string) :
  PyStr.slice (String a (mid ++ String z EmptyString)) 1 (-1) = mid.
Proof.
  unfold PyStr.slice, PyStr.slice_index.
  cbn [String.length]. rewrite length_append. cbn [String.length].
  set (n := String.length mid).
  replace (Z.of_nat (S (n + 1))) with (Z.of_nat n + 2) by lia.
  change (1 <? 0) with false. change (-1 <? 0) with true. cbv iota.
  replace (Z.max 0 (Z.min (Z.of_nat n + 2) 1)) with 1 by lia.
  replace (Z.max 0 (Z.min (Z.of_nat n + 2) (-1 + (Z.of_nat n + 2))))
    with (Z.of_nat n + 1) by lia.
  replace (Z.of_nat n + 1 - 1) with (Z.of_nat n) by lia.
  rewrite Nat2Z.id. change (Z.to_nat 1) with 1%nat.
  cbn [substring]. apply substring_0_append.
Qed.

End StripFacts.

Section HaPrefixFacts.

Lemma lit_matches_plain (flags : Z) (x c : ascii) :
  re.has_flag flags re.I = false -> re.lit_matches flags x c = Ascii.eqb x c.
Proof. unfold re.lit_matches. now intros ->. Qed.

Lemma at_bol_Some (c : ascii) :
  re.at_bol re.M (Some c) = Ascii.eqb c re.newline.
Proof. reflexivity. Qed.

Lemma compile_ha_prefix : re.compile "^HRP_." = inr ha_prefix_regex.
Proof. reflexivity. Qed.

(** Away from a line start the HA prefix pattern matches nothing. *)
Lemma ha_prefix_no_match_inside (x : ascii) (s : string) :
  Ascii.eqb x re.newline = false ->
  re.match_here re.M ha_prefix_regex (Some x) s = None.
Proof.
  intros Hx. unfold re.match_here, ha_prefix_regex. cbn [re.m].
  now rewrite at_bol_Some, Hx.
Qed.

Lemma sub_ha_prefix_inside (x : ascii) (s : string) :
  Ascii.eqb x re.newline = false ->
  has_char re.newline s = false ->
  re.sub_from re.M ha_prefix_regex EmptyString 0 (Some x) s = s.
Proof.
  revert x. induction s as [|c s IH]; intros x Hx Hs; [reflexivity|].
  cbn [has_char] in Hs. apply orb_false_elim in Hs as [Hc Hs].
  cbn [re.sub_from]. rewrite (ha_prefix_no_match_inside x _ Hx).
  now rewrite (IH c Hc Hs).
Qed.

Lemma sub_ha_prefix_other_start (a : ascii) (s : string) :
  Ascii.eqb "H" a = false ->
  Ascii.eqb a re.newline = false ->
  has_char re.newline s = false ->
  re.sub_from re.M ha_prefix_regex EmptyString 0 None (String a s) = String a s.
Proof.
  intros Ha Hn Hs. cbn [re.sub_from].
  assert (E : re.match_here re.M ha_prefix_regex None (String a s) = None).
  { unfold re.match_here, ha_prefix_regex. cbn [re.m re.at_bol].
    rewrite lit_matches_plain by reflexivity. now rewrite Ha. }
  rewrite E. now rewrite sub_ha_prefix_inside.
Qed.

Lemma sub_ha_prefix_at_start (c : ascii) (s : string) :
  Ascii.eqb c re.newline = false ->
  has_char re.newline s = false ->
  re.sub_from re.M ha_prefix_regex EmptyString 0 None
    ("HRP_" ++ String c s) = s.
Proof.
  intros Hc Hs.
  assert (E : re.match_here re.M ha_prefix_regex None ("HRP_" ++ String c s)
              = Some s).
  { unfold re.match_here, ha_prefix_regex. cbn [re.m re.at_bol append].
    rewrite !lit_matches_plain by reflexivity. rewrite !Ascii.eqb_refl.
    now rewrite Hc. }
  cbn [append] in *. cbn [re.sub_from]. rewrite E.
  cbn [String.length].
  replace (S (S (S (S (S (String.length s))))) - String.length s)%nat
    with 5%nat by lia.
  cbn [re.sub_from append]. now apply sub_ha_prefix_inside.
Qed.

End HaPrefixFacts.

Section SetBasePrompt.
Context {base : CiscoBaseConnection}.
Variable self : session.

(** [set_base_prompt] is its four channel operations followed by the
    computation on the text read. *)
Lemma set_base_prompt_after_read pri alt delay_factor st text st1 :
  read_prompt self delay_factor st = (Return text, st1) ->
  Huawei.set_base_prompt self pri alt delay_factor st =
    match prompt_of_text self pri alt text with
    | Return p => (Return p, set_base_prompt_attr p st1)
    | Raise e => (Raise e, st1)
    end.
Proof.
  unfold read_prompt, Huawei.set_base_prompt, prompt_of_text, bind.
  destruct (clear_buffer st) as [[[]|e] s1]; [|discriminate].
  destruct (write_channel (RETURN self) s1) as [[[]|e] s2]; [|discriminate].
  destruct (sleep _ s2) as [[[]|e] s3]; [|discriminate].
  intros ->.
  destruct (PyStr.split text (RESPONSE_RETURN self)) as [pieces|]; [|reflexivity].
  unfold ret.
  destruct (PyStr.last_item pieces) as [line|]; [|reflexivity].
  destruct (PyStr.last_char (PyStr.strip line)) as [last|]; [|reflexivity].
  destruct (negb _); [reflexivity|].
  destruct (re.sub _ _ _ _); reflexivity.
Qed.

Lemma read_prompt_raises pri alt delay_factor st e st1 :
  read_prompt self delay_factor st = (Raise e, st1) ->
  Huawei.set_base_prompt self pri alt delay_factor st = (Raise e, st1).
Proof.
  unfold read_prompt, Huawei.set_base_prompt, bind.
  destruct (clear_buffer st) as [[[]|e0] s1]; [|trivial].
  destruct (write_channel (RETURN self) s1) as [[[]|e1] s2]; [|trivial].
  destruct (sleep _ s2) as [[[]|e2] s3]; [|trivial].
  now intros ->.
Qed.

(** The line [set_base_prompt] works on, for a text that is the HA
    prompt: the whole text, or what follows the newline when the
    arbitrary character is one. *)
Lemma ha_prompt_last_line (c : ascii) (host : string) :
  has_char re.newline host = false ->
  PyStr.last_item (PyStr.split_go LF 0 ("HRP_" ++ String c ("[" ++ host ++ "]")))
  = Some (if Ascii.eqb c re.newline then "[" ++ host ++ "]"
          else "HRP_" ++ String c ("[" ++ host ++ "]")).
Proof.
  intros Hh.
  assert (Hb : has_char re.newline ("[" ++ host ++ "]") = false).
  { rewrite !has_char_append, Hh. reflexivity. }
  destruct (Ascii.eqb c re.newline) eqn:Hc.
  - apply Ascii.eqb_eq in Hc. subst c.
    rewrite last_line_after_newline, (split_go_one_line _ Hb). reflexivity.
  - rewrite split_go_one_line; [reflexivity|].
    rewrite has_char_append. cbn [has_char]. rewrite Hc, Hb. reflexivity.
Qed.

Lemma compile_ha_prefix_sub (s : string) :
  re.sub "^HRP_." "" s re.M = inr (re.sub_from re.M ha_prefix_regex EmptyString 0 None s).
Proof. reflexivity. Qed.

Lemma prompt_of_ha_text (c : ascii) (host : string) :
  RESPONSE_RETURN self = LF ->
  has_char re.newline host = false ->
  prompt_of_text self ">" "]" ("HRP_" ++ String c ("[" ++ host ++ "]"))
  = Return (PyStr.strip host).
Proof.
  intros HR Hh. unfold prompt_of_text. rewrite HR.
  unfold PyStr.split, LF at 1. fold LF.
  rewrite (ha_prompt_last_line c host Hh).
  assert (Hb : has_char re.newline (host ++ "]") = false).
  { rewrite has_char_append, Hh. reflexivity. }
  destruct (Ascii.eqb c re.newline) eqn:Hc.
  - cbn [append].
    rewrite (strip_framed "[" "]" host) by reflexivity.
    change (String "[" (host ++ "]")) with (String "[" host ++ "]") at 1.
    rewrite last_char_end. cbn [String.eqb Ascii.eqb Bool.eqb negb orb].
    rewrite compile_ha_prefix_sub.
    rewrite sub_ha_prefix_other_start by (assumption || reflexivity).
    now rewrite slice_inner.
  - cbn [append].
    change (String "H" (String "R" (String "P" (String "_"
              (String c (String "[" (host ++ "]")))))))
      with (String "H" (("RP_" ++ String c (String "[" host)) ++ "]")).
    rewrite (strip_framed "H" "]") by reflexivity.
    change (String "H" (("RP_" ++ String c (String "[" host)) ++ "]"))
      with (("HRP_" ++ String c (String "[" host)) ++ "]") at 1.
    rewrite last_char_end. cbn [String.eqb Ascii.eqb Bool.eqb negb orb].
    rewrite compile_ha_prefix_sub.
    change (String "H" (("RP_" ++ String c (String "[" host)) ++ "]"))
      with ("HRP_" ++ String c (String "[" (host ++ "]"))).
    rewrite sub_ha_prefix_at_start; [|assumption|].
    + now rewrite slice_inner.
    + cbn [has_char]. now rewrite Hb.
Qed.

(** A line that ends in another character than [>] and [[]] is
    refused with the prompt-not-found error. *)
Lemma set_base_prompt_rejects_other_final_character
  delay_factor st st1 text pieces line last :
  read_prompt self delay_factor st = (Return text, st1) ->
  PyStr.split text (RESPONSE_RETURN self) = Some pieces ->
  PyStr.last_item pieces = Some line ->
  PyStr.last_char (PyStr.strip line) = Some last ->
  last <> ">" -> last <> "]" ->
  Huawei.set_base_prompt self ">" "]" delay_factor st
  = (Raise (ValueError ("Router prompt not found: " ++ PyStr.strip line)), st1).
Proof.
  intros Hr Hs Hl Hc H1 H2.
  rewrite (set_base_prompt_after_read _ _ _ _ _ _ Hr).
  unfold prompt_of_text. rewrite Hs, Hl, Hc.
  apply String.eqb_neq in H1, H2. rewrite H1, H2. reflexivity.
Qed.

(** A read whose last line is empty once stripped ends in an
    IndexError, not in the prompt-not-found error. *)
Lemma set_base_prompt_empty_line
  pri alt delay_factor st st1 text pieces line :
  read_prompt self delay_factor st = (Return text, st1) ->
  PyStr.split text (RESPONSE_RETURN self) = Some pieces ->
  PyStr.last_item pieces = Some line ->
  PyStr.strip line = EmptyString ->
  Huawei.set_base_prompt self pri alt delay_factor st = (Raise IndexError, st1).
Proof.
  intros Hr Hs Hl He.
  rewrite (set_base_prompt_after_read _ _ _ _ _ _ Hr).
  unfold prompt_of_text. rewrite Hs, Hl, He. reflexivity.
Qed.

End SetBasePrompt.

(** C4, on a concrete run: nothing is pending when [set_base_prompt]
    reads. The method raises IndexError (the index [-1] of the empty
    string), not the ValueError that reports a prompt without
    terminator. *)
Theorem set_base_prompt_empty_read :
  let run := @Huawei.set_base_prompt (ScriptedBase example_session)
               example_session ">" "]" 1 (connect [] []) in
  fst run = Raise IndexError
  /\ (forall msg, fst run <> Raise (ValueError msg))
  /\ trace (snd run) =
       [EvRead (Return EmptyString); EvSleep ((5 # 10) * 1); EvWrite LF;
        EvClearBuffer].
Proof.
  cbv zeta. split; [reflexivity|]. split; [|reflexivity].
  intros msg H. vm_compute in H. discriminate H.
Qed.

(** C7 as stated fails: whitespace around the host is stripped too. *)
Lemma set_base_prompt_ha_prefix_counterexample :
  ~ (forall (c : ascii) (host : string) (st st1 : state),
        @read_prompt (ScriptedBase example_session) example_session 1 st
        = (Return ("HRP_" ++ String c ("[" ++ host ++ "]")), st1) ->
        fst (@Huawei.set_base_prompt (ScriptedBase example_session)
               example_session ">" "]" 1 st) = Return host).
Proof.
  intros H.
  specialize (H "M"%char " sw1 "
                (connect [Data "Info: last login"; Data "HRP_M[ sw1 ]"] [])
                _ eq_refl).
  vm_compute in H. discriminate H.
Qed.

(** C7, amended. For every prompt [HRP_] + one arbitrary character +
    [[host]] whose host contains no line break (lines ending with a
    newline), [set_base_prompt] derives, returns and stores the host
    with its surrounding whitespace stripped: the host itself when it
    neither starts nor ends with whitespace. *)
Theorem set_base_prompt_ha_prefix :
  forall (base : CiscoBaseConnection) (self : session) (delay_factor : Q)
         (st st1 : state) (c : ascii) (host : string),
    RESPONSE_RETURN self = LF ->
    has_char re.newline host = false ->
    read_prompt self delay_factor st
    = (Return ("HRP_" ++ String c ("[" ++ host ++ "]")), st1) ->
    Huawei.set_base_prompt self ">" "]" delay_factor st
    = (Return (PyStr.strip host), set_base_prompt_attr (PyStr.strip host) st1)
    /\ (PyStr.strip host = host ->
        fst (Huawei.set_base_prompt self ">" "]" delay_factor st) = Return host).
Proof.
  intros base self delay_factor st st1 c host HR Hh Hr.
  assert (E : Huawei.set_base_prompt self ">" "]" delay_factor st
              = (Return (PyStr.strip host),
                 set_base_prompt_attr (PyStr.strip host) st1)).
  { rewrite (set_base_prompt_after_read _ _ _ _ _ _ _ Hr).
    now rewrite (prompt_of_ha_text self c host HR Hh). }
  split; [exact E|]. intros Hs. rewrite E. cbn. now rewrite Hs.
Qed.

Lemma set_base_prompt_ha_prefix_witness :
  fst (@Huawei.set_base_prompt (ScriptedBase example_session) example_session
         ">" "]" 1 (connect [Data "Info: last login"; Data "HRP_M[sw1]"] []))
  = Return "sw1".
Proof.
  refine (proj2 (set_base_prompt_ha_prefix (ScriptedBase example_session)
                   example_session 1
                   (connect [Data "Info: last login"; Data "HRP_M[sw1]"] []) _
                   "M"%char "sw1" eq_refl eq_refl eq_refl)
                eq_refl).
Defined.

(* ================================================================== *)
(** * Escape artifacts: [HuaweiBase.strip_ansi_escape_codes] *)
(* ================================================================== *)

Section EscapeFacts.

Lemma strip_ansi_escape_codes_unfold {base : CiscoBaseConnection} (s : string) :
  Huawei.strip_ansi_escape_codes s
  = super_strip_ansi_escape_codes
      (re.sub_from 0 space_cursor_left_regex EmptyString 0 None s).
Proof. reflexivity. Qed.

Lemma generic_strip_unfold (s : string) :
  generic_strip_ansi_escape_codes s
  = re.sub_from 0 cursor_left_regex EmptyString 0 None s.
Proof. reflexivity. Qed.

Lemma lit_ESC_mismatch (c : ascii) :
  Ascii.eqb c ESC = false ->
  re.lit_matches 0 ltac:(let x := eval vm_compute in ESC in exact x) c = false.
Proof.
  intros H. rewrite lit_matches_plain by reflexivity.
  rewrite Ascii.eqb_sym. exact H.
Qed.

(** Both escape patterns need an ESC character to match. *)
Lemma space_cursor_left_needs_esc (prev : option ascii) (s : string) :
  has_char ESC s = false ->
  re.match_here 0 space_cursor_left_regex prev s = None.
Proof.
  intros H. unfold re.match_here, space_cursor_left_regex.
  destruct s as [|c [|c' s]]; cbn [re.m]; [reflexivity| |].
  - now destruct (re.lit_matches 0 " " c).
  - cbn [has_char] in H. apply orb_false_elim in H as [_ H].
    apply orb_false_elim in H as [H _].
    rewrite (lit_ESC_mismatch _ H). now destruct (re.lit_matches 0 " " c).
Qed.

Lemma cursor_left_needs_esc (prev : option ascii) (s : string) :
  has_char ESC s = false ->
  re.match_here 0 cursor_left_regex prev s = None.
Proof.
  intros H. unfold re.match_here, cursor_left_regex.
  destruct s as [|c s]; cbn [re.m]; [reflexivity|].
  cbn [has_char] in H. apply orb_false_elim in H as [H _].
  now rewrite (lit_ESC_mismatch _ H).
Qed.

Lemma sub_space_cursor_left_without_esc (s : string) (prev : option ascii) :
  has_char ESC s = false ->
  re.sub_from 0 space_cursor_left_regex EmptyString 0 prev s = s.
Proof.
  revert prev. induction s as [|c s IH]; intros prev H; [reflexivity|].
  cbn [re.sub_from]. rewrite (space_cursor_left_needs_esc _ _ H).
  cbn [has_char] in H. apply orb_false_elim in H as [_ H].
  now rewrite IH.
Qed.

Lemma sub_cursor_left_without_esc (s : string) (prev : option ascii) :
  has_char ESC s = false ->
  re.sub_from 0 cursor_left_regex EmptyString 0 prev s = s.
Proof.
  revert prev. induction s as [|c s IH]; intros prev H; [reflexivity|].
  cbn [re.sub_from]. rewrite (cursor_left_needs_esc _ _ H).
  cbn [has_char] in H. apply orb_false_elim in H as [_ H].
  now rewrite IH.
Qed.

Lemma generic_strip_without_esc (s : string) :
  has_char ESC s = false -> generic_strip_ansi_escape_codes s = s.
Proof.
  intros H. rewrite generic_strip_unfold.
  now apply sub_cursor_left_without_esc.
Qed.

End EscapeFacts.

(** Whether a second application changes the result is decided by
    the inherited stripper, which the driver calls last. Over a
    stripper that is idempotent and whose results hold nothing for the
    driver's substitution to remove, two applications give what one
    gives, on every input. *)
Lemma strip_ansi_escape_codes_twice_over_thorough_stripper :
  forall (base : CiscoBaseConnection),
    (forall s : string,
        super_strip_ansi_escape_codes (super_strip_ansi_escape_codes s)
        = super_strip_ansi_escape_codes s) ->
    (forall s : string,
        re.sub_from 0 space_cursor_left_regex EmptyString 0 None
          (super_strip_ansi_escape_codes s)
        = super_strip_ansi_escape_codes s) ->
    forall s : string,
      Huawei.strip_ansi_escape_codes (Huawei.strip_ansi_escape_codes s)
      = Huawei.strip_ansi_escape_codes s.
Proof.
  intros base Hidem Hclean s.
  rewrite (strip_ansi_escape_codes_unfold (Huawei.strip_ansi_escape_codes s)).
  rewrite (strip_ansi_escape_codes_unfold s).
  now rewrite Hclean, Hidem.
Qed.

(** Over a stripper that removes the cursor-left sequences present in
    its argument and does not look at its own result again, a sequence
    that encloses another one is exposed by the first application and
    removed, with the space before it, by the second. *)
Lemma strip_ansi_escape_codes_twice_over_single_pass_stripper :
  let s := " " ++ String ESC "[1" ++ String ESC "[2DD" in
  @Huawei.strip_ansi_escape_codes (ScriptedBase example_session) s
  = " " ++ String ESC "[1D"
  /\ @Huawei.strip_ansi_escape_codes (ScriptedBase example_session)
       (@Huawei.strip_ansi_escape_codes (ScriptedBase example_session) s)
     = EmptyString.
Proof. vm_compute. auto. Qed.

(* ================================================================== *)
(** * SSH post-login handler: [HuaweiSSH.special_login_handler] *)
(* ================================================================== *)

Section SearchFacts.

(** A match at some position is found by the search from any earlier
    position. *)
Lemma search_from_append (flags : Z) (r : re.regex) (pre s : string) :
  (forall prev, re.match_here flags r prev s <> None) ->
  forall prev, re.search_from flags r prev (pre ++ s) = true.
Proof.
  intros H. induction pre as [|c pre IH]; intros prev.
  - cbn [append]. specialize (H prev).
    destruct s; cbn [re.search_from];
      destruct (re.match_here flags r prev _); congruence.
  - cbn [append re.search_from].
    destruct (re.match_here flags r prev _); [reflexivity | apply IH].
Qed.

Lemma set_matches_space (c : ascii) :
  re.set_matches 0 false [re.CSpace] c = PyStr.is_space c.
Proof.
  unfold re.set_matches. change (re.has_flag 0 re.I) with false.
  cbn. now rewrite orb_false_r.
Qed.

(** [\s*$] on trailing whitespace: the repetition takes all of it. *)
Lemma star_space_to_end (ws : string) :
  all_space ws = true ->
  forall (n : nat) (prev : option ascii),
    (String.length ws <= n)%nat ->
    re.star_loop (re.m 0 (re.CSet false [re.CSpace]))
      (re.m 0 re.Eol re.accept) n prev ws = Some EmptyString.
Proof.
  induction ws as [|c ws IH]; intros Hs n prev Hn.
  - destruct n; reflexivity.
  - cbn [all_space] in Hs. apply andb_prop in Hs as [Hc Hs].
    destruct n as [|n]; [cbn in Hn; lia|].
    cbn [re.star_loop re.m]. rewrite set_matches_space, Hc.
    cbn [String.length] in *.
    replace (String.length ws <? S (String.length ws))%nat with true
      by (symmetry; apply Nat.ltb_lt; lia).
    rewrite IH; [reflexivity | assumption | lia].
Qed.

(** The pattern of the SSH login handler matches at a terminator that
    only whitespace follows. *)
Lemma ssh_login_matches_terminator (t : ascii) (ws : string) :
  t = "]"%char \/ t = ">"%char ->
  all_space ws = true ->
  forall prev, re.match_here 0 ssh_login_regex prev (String t ws) <> None.
Proof.
  intros Ht Hs prev. unfold re.match_here, ssh_login_regex.
  cbn [re.m].
  match goal with
  | |- match ?x with _ => _ end <> None => destruct x; [discriminate|]
  end.
  assert (Hm : re.set_matches 0 false [re.CChar "]"; re.CChar ">"] t = true)
    by (destruct Ht; subst t; reflexivity).
  rewrite Hm, star_space_to_end; [discriminate | assumption | lia].
Qed.

Lemma ssh_login_search (text : string) :
  re.search ssh_login_pattern text 0
  = inr (re.search_from 0 ssh_login_regex None text).
Proof. reflexivity. Qed.

(** A blocking read returns a text its pattern matches. *)
Lemma read_until_go_matches flags r script :
  forall acc out rest,
    read_until_go flags r acc script = (Return out, rest) ->
    re.search_from flags r None out = true.
Proof.
  induction script as [|[text| |] script IH]; intros acc out rest H;
    cbn [read_until_go] in H; try discriminate.
  destruct (re.search_from flags r None (acc ++ text)) eqn:E.
  - now inversion H; subst.
  - eapply IH, H.
Qed.

Lemma read_until_pattern_matches pattern read_timeout flags st out st1 :
  read_until_pattern pattern read_timeout flags st = (Return out, st1) ->
  re.search pattern out flags = inr true.
Proof.
  unfold read_until_pattern, re.search.
  destruct (re.compile pattern) as [e|r]; [discriminate|].
  destruct (read_until_go flags r EmptyString (incoming st)) as [res rest] eqn:E.
  intros H. inversion H; subst.
  now rewrite (read_until_go_matches _ _ _ _ _ _ E).
Qed.

End SearchFacts.

(** C10. When the blocking read of the SSH login handler returns a
    text that its pattern (password change or prompt) matches, the
    handler goes on exactly as writing [N] and a newline and then
    clearing the buffer; and the pattern matches every returned text
    that ends in [[]] or [>] followed by whitespace only, whether or not
    it shows a password-change prompt. *)
Theorem special_login_handler_answers_N :
  forall (delay_factor : Q) (st st1 : state) (output : string),
    read_until_pattern ssh_login_pattern default_read_timeout 0 st
    = (Return output, st1) ->
    (re.search ssh_login_pattern output 0 = inr true ->
     Huawei.special_login_handler delay_factor st
     = (write_channel ("N" ++ LF) ;; clear_buffer) st1)
    /\
    (forall (pre ws : string) (t : ascii),
        output = pre ++ String t ws ->
        t = "]"%char \/ t = ">"%char ->
        all_space ws = true ->
        re.search ssh_login_pattern output 0 = inr true).
Proof.
  intros delay_factor st st1 output Hread. split.
  - intros Hm. unfold Huawei.special_login_handler.
    fold ssh_login_pattern.
    rewrite (bind_Return _ _ _ _ _ Hread). rewrite Hm.
    cbn [lift_re]. unfold bind at 1. cbn [ret].
    rewrite bind_ret_unit. reflexivity.
  - intros pre ws t -> Ht Hs. rewrite ssh_login_search. f_equal.
    apply search_from_append. now apply ssh_login_matches_terminator.
Qed.

Lemma special_login_handler_answers_N_witness :
  Huawei.special_login_handler 1 (connect [Data "Info: ok"; Data ("<sw>" ++ LF)] [])
  = (Return tt,
     mkState [] [] false
       [EvClearBuffer; EvWrite ("N" ++ LF);
        EvReadUntil ssh_login_pattern 0 (Return ("Info: ok<sw>" ++ LF))]
       EmptyString false).
Proof.
  assert (Hread :
    read_until_pattern ssh_login_pattern default_read_timeout 0
      (connect [Data "Info: ok"; Data ("<sw>" ++ LF)] [])
    = (Return ("Info: ok<sw>" ++ LF),
       mkState [] [] false
         [EvReadUntil ssh_login_pattern 0 (Return ("Info: ok<sw>" ++ LF))]
         EmptyString false))
    by (vm_compute; reflexivity).
  destruct (special_login_handler_answers_N 1 _ _ _ Hread) as [Hn Hm].
  rewrite Hn; [reflexivity|].
  apply (Hm "Info: ok<sw" LF ">"%char); [reflexivity | now right | reflexivity].
Defined.

(* ================================================================== *)
(** * LoginStateMachine: [HuaweiTelnet.telnet_login] *)
(* ================================================================== *)

Section TelnetLogin.
Context {base : CiscoBaseConnection}.
Variable self : session.
Variables pri alt username_pattern pwd_pattern : string.









Variable delay_factor : Q.
Variable max_loops : Z.

Let seconds : Q := (5 # 10) * select_delay_factor delay_factor.








End TelnetLogin.

Section TelnetLoginChecks.
Context {base : CiscoBaseConnection}.
Variable self : session.
Variables pri alt username_pattern pwd_pattern : string.












End TelnetLoginChecks.



(** Three runs with the default arguments: a login that succeeds in the
    first round, an end of stream in the second read, and a device that
    keeps offering the password change until the rounds are used up. *)
Example telnet_login_succeeds :
  fst (@Huawei.telnet_login (ScriptedBase example_session) example_session
         "]\s*$" ">\s*$" "(?:user:|username|login|user name)" "assword" 1 20
         (connect [Data "Username:"; Data "Password:"; Data "<sw>"] []))
  = Return "Username:Password:<sw>".
Proof. vm_compute. reflexivity. Qed.

Example telnet_login_end_of_stream :
  fst (@Huawei.telnet_login (ScriptedBase example_session) example_session
         "]\s*$" ">\s*$" "(?:user:|username|login|user name)" "assword" 1 20
         (connect [Data "Username:"; Eof] []))
  = Raise (login_failure example_session).
Proof. vm_compute. reflexivity. Qed.

Example telnet_login_rounds_used_up :
  fst (@Huawei.telnet_login (ScriptedBase example_session) example_session
         "]\s*$" ">\s*$" "(?:user:|username|login|user name)" "assword" 1 1
         (connect [Data "Username:"; Data "Password:";
                   Data "Change now? [Y/N]:";
                   Data "Please choose 'YES' or 'NO' first";
                   Data "Info: wait"] []))
  = Raise (login_failure example_session).
Proof. vm_compute. reflexivity. Qed.

(* ================================================================== *)
(** * ConfigCommitWorkflow: [HuaweiVrpv8SSH.commit] *)
(* ================================================================== *)

Section Commit.
Context {base : CiscoBaseConnection}.
Variable self : session.

Lemma commit_unfold comment read_timeout delay_factor st o1 o2 o3 st1 st2 st3 :
  super_config_mode "system-view" EmptyString 0 (after_warning delay_factor st)
    = (Return o1, st1) ->
  _send_command_str (commit_command comment) false false read_timeout "]" st1
    = (Return o2, st2) ->
  super_exit_config_mode (Some "return") (Some ">") st2 = (Return o3, st3) ->
  Huawei.commit comment read_timeout delay_factor st =
    (if PyStr.contains Huawei.error_marker ((o1 ++ o2) ++ o3)
     then Raise (ValueError ("Commit failed with following errors:" ++ LF ++ LF
                             ++ ((o1 ++ o2) ++ o3)))
     else Return ((o1 ++ o2) ++ o3), st3).
Proof.
  intros H1 H2 H3. unfold Huawei.commit, Huawei.config_mode,
    Huawei.exit_config_mode.
  assert (Hw : forall (k : unit -> M string),
             bind (match delay_factor with
                   | Some _ => emit EvWarn
                   | None => ret tt
                   end) k st = k tt (after_warning delay_factor st)).
  { intros k. destruct delay_factor; reflexivity. }
  rewrite Hw. rewrite (bind_Return _ _ _ _ _ H1).
  unfold commit_command in H2.
  change ("commit" ++ " comment " ++ DQUOTE ++ comment ++ DQUOTE)
    with ("commit comment " ++ DQUOTE ++ comment ++ DQUOTE).
  rewrite (bind_Return _ _ _ _ _ H2).
  rewrite (bind_Return _ _ _ _ _ H3).
  destruct (PyStr.contains Huawei.error_marker ((o1 ++ o2) ++ o3)); reflexivity.
Qed.

End Commit.

(** C5. Whenever the three steps of [commit] (entering configuration
    mode, the commit command, leaving configuration mode) return, and
    their combined output contains [Failed to generate committed config],
    [commit] raises the commit failure (a ValueError) whose message
    carries the combined output and so contains that substring; when the
    substring is absent, [commit] returns the combined output. *)
Theorem commit_fails_on_error_marker :
  forall (base : CiscoBaseConnection) (comment : string) (read_timeout : Q)
         (delay_factor : option Q) (st st1 st2 st3 : state) (o1 o2 o3 : string),
    super_config_mode "system-view" EmptyString 0 (after_warning delay_factor st)
      = (Return o1, st1) ->
    _send_command_str (commit_command comment) false false read_timeout "]" st1
      = (Return o2, st2) ->
    super_exit_config_mode (Some "return") (Some ">") st2 = (Return o3, st3) ->
    let output := (o1 ++ o2) ++ o3 in
    (PyStr.contains "Failed to generate committed config" output = true ->
     exists raw,
       Huawei.commit comment read_timeout delay_factor st
         = (Raise (ValueError raw), st3)
       /\ raw = "Commit failed with following errors:" ++ LF ++ LF ++ output
       /\ PyStr.contains "Failed to generate committed config" raw = true)
    /\
    (PyStr.contains "Failed to generate committed config" output = false ->
     Huawei.commit comment read_timeout delay_factor st = (Return output, st3)).
Proof.
  intros base comment read_timeout delay_factor st st1 st2 st3 o1 o2 o3 H1 H2 H3 output.
  pose proof (commit_unfold comment read_timeout delay_factor st
                o1 o2 o3 st1 st2 st3 H1 H2 H3) as E.
  fold output in E. unfold Huawei.error_marker in E.
  split; intros Hc; rewrite Hc in E.
  - eexists. split; [exact E|]. split; [reflexivity|].
    rewrite <- !append_assoc. now apply contains_append_r.
  - exact E.
Qed.

Lemma commit_fails_on_error_marker_witness :
  let st := connect [Data "[~sw]"; Data "Error: Failed to generate committed config."; Data "<sw>"] [] in
  exists raw st3,
    @Huawei.commit (ScriptedBase example_session) "" 120 None st
      = (Raise (ValueError raw), st3)
    /\ PyStr.contains "Failed to generate committed config" raw = true.
Proof.
  intros st.
  destruct (commit_fails_on_error_marker (ScriptedBase example_session)
              "" 120 None st _ _ _ _ _ _ eq_refl eq_refl eq_refl) as [Hbad _].
  destruct (Hbad eq_refl) as (raw & E & _ & Hraw).
  exists raw. eexists. split; [exact E | exact Hraw].
Defined.

(* ================================================================== *)
(** * PrivilegeElevation: [HPProcurveBase.enable] *)
(* ================================================================== *)

(** C6 as stated fails: finding out that the session is privileged is
    itself a conversation with the device. On a session whose prompt
    ends in [#], [enable] returns the empty string, and the call has
    written a line terminator and read the prompt: the write and the
    read of the mode check. *)
Lemma enable_already_privileged_counterexample :
  let st := connect [Data "sw# "] [] in
  let run :=
    @HPProcurve.enable (ScriptedBase example_session) example_session
      "enable" "password" None re.IGNORECASE "manager" st in
  fst run = Return EmptyString
  /\ trace st = []
  /\ writes_of (trace (snd run)) = [LF]
  /\ count_reads (trace (snd run)) = 1%nat.
Proof. vm_compute. auto. Qed.

(** C6, amended. When the mode check finds the session already
    privileged, [enable] returns the empty string at once: the state it
    leaves is the state the check left, so beyond the writes and reads
    of the mode check [enable] writes nothing to the channel and reads
    nothing from it. *)
Theorem enable_already_privileged :
  forall (base : CiscoBaseConnection) (self : session)
         (cmd pattern : string) (enable_pattern : option string)
         (re_flags : Z) (default_username : string) (st st' : state),
    check_enable_mode st = (Return true, st') ->
    HPProcurve.enable self cmd pattern enable_pattern re_flags
      default_username st = (Return EmptyString, st').
Proof.
  intros base self cmd pattern enable_pattern re_flags default_username st st' H.
  unfold HPProcurve.enable. now rewrite (bind_Return _ _ _ _ _ H).
Qed.

Lemma enable_already_privileged_witness :
  let st := connect [Data "sw# "] [] in
  @HPProcurve.enable (ScriptedBase example_session) example_session
    "enable" "password" None re.IGNORECASE "manager" st
  = (Return EmptyString,
     mkState [] [] false [EvRead (Return "sw# "); EvWrite LF] EmptyString false).
Proof.
  intros st.
  apply (enable_already_privileged (ScriptedBase example_session)).
  reflexivity.
Defined.

(** The pattern of the read that follows the username re-prompt has a
    closing parenthesis that nothing opens. *)
Lemma enable_second_pattern_does_not_compile :
  re.compile ("password" ++ "|" ++ "[>#]" ++ ")") = inl re.unbalanced_parenthesis.
Proof. reflexivity. Qed.

(** Whatever the state, a first read that shows the username re-prompt
    leads [enable] (with its default arguments) to send [manager] and
    then to fail in the next read, on the pattern itself. *)
Lemma enable_username_reprompt_always_fails :
  forall (base : CiscoBaseConnection) (self : session) (st st1 st2 st3 : state)
         (new_output : string),
    check_enable_mode st = (Return false, st1) ->
    write_channel ("enable" ++ RETURN self) st1 = (Return tt, st2) ->
    read_until_pattern "(username|login|user name|password|[>#])" 15
      re.IGNORECASE st2 = (Return new_output, st3) ->
    re.search "(username|login|user name)" new_output re.IGNORECASE = inr true ->
    forall st4,
      write_channel ("manager" ++ RETURN self) st3 = (Return tt, st4) ->
      HPProcurve.enable self "enable" "password" None re.IGNORECASE "manager" st
      = (Raise (re_error re.unbalanced_parenthesis),
         log_event (EvReadUntil "password|[>#])" re.IGNORECASE
                      (Raise (re_error re.unbalanced_parenthesis))) st4).
Proof.
  intros base self st st1 st2 st3 new_output H1 H2 H3 H4 st4 H5.
  unfold HPProcurve.enable.
  rewrite (bind_Return _ _ _ _ _ H1). cbv beta iota.
  rewrite (bind_Return _ _ _ _ _ H2).
  change ("(username|login|user name|" ++ "password" ++ "|" ++ "[>#]" ++ ")")
    with "(username|login|user name|password|[>#])".
  rewrite (bind_Return _ _ _ _ _ H3).
  rewrite H4. unfold lift_re at 1.
  rewrite (bind_Return _ _ _ _ _ (eq_refl : ret true st3 = (Return true, st3))).
  rewrite bind_assoc.
  change (EmptyString ++ new_output) with new_output.
  rewrite (bind_Return _ _ _ _ _ H5).
  reflexivity.
Qed.

(** C3, on a concrete session: the device answers [enable] with a
    username re-prompt; [manager] is sent, and the read that follows is
    called with the pattern [password|[>#])], which does not compile:
    the read raises [re.error] instead of waiting for the password
    prompt or the terminator that the device goes on to show. *)
Theorem enable_username_reprompt_read_fails :
  let st := connect [Data "sw> "; Data "Username: "; Data "Password: ";
                     Data "sw# "] [] in
  let run := @HPProcurve.enable (ScriptedBase example_session) example_session
               "enable" "password" None re.IGNORECASE "manager" st in
  fst run = Raise (re_error re.unbalanced_parenthesis)
  /\ trace (snd run) =
       [EvReadUntil "password|[>#])" re.IGNORECASE
          (Raise (re_error re.unbalanced_parenthesis));
        EvWrite ("manager" ++ LF);
        EvReadUntil "(username|login|user name|password|[>#])" re.IGNORECASE
          (Return "Username: ");
        EvWrite ("enable" ++ LF);
        EvRead (Return "sw> ");
        EvWrite LF]
  /\ incoming (snd run) = [Data "Password: "; Data "sw# "].
Proof. vm_compute. repeat split. Qed.

(* ================================================================== *)
(** * GracefulTeardown: [HPProcurveBase.cleanup] *)
(* ================================================================== *)

Section CleanupEscapes.
Context {base : CiscoBaseConnection}.
Variable self : session.

(** A round raises only through an operation that is not guarded. *)
Lemma cleanup_round_escapes (output : string) (st : state) :
  forall e st',
    HPProcurve.cleanup_round self output st = (Raise e, st') ->
    round_escape self e (trace st').
Proof.
  intros e st'. unfold HPProcurve.cleanup_round.
  unfold bind at 1, sleep, emit.
  set (st0 := log_event (EvSleep (3 # 10)) st).
  unfold bind at 1, try_except at 1, bind at 1.
  destruct (read_channel_shape st0) as (r & st1 & E & _ & Ht & _).
  rewrite E.
  assert (Hr : r = Return EmptyString \/ (exists t, r = Return t)
               \/ r = Raise EOFError \/ r = Raise socket_error).
  { unfold read_channel in E. destruct (incoming st0) as [|[t| |] rest];
      inversion E; subst; eauto. }
  destruct r as [new_output|e0].
  - cbn [ret].
    destruct (PyStr.contains "Do you want to log out" new_output).
    + destruct (write_channel_shape ("y" ++ RETURN self) st1)
        as (st2 & _ & [[E2 Ht2] | [E2 Ht2]]);
        unfold bind; rewrite E2; cbn [ret]; intros [= <- <-].
      left. rewrite Ht2. cbn. auto.
    + destruct (PyStr.contains "Do you want to save the current" new_output).
      * destruct (write_channel_shape ("n" ++ RETURN self) st1)
          as (st2 & _ & [[E2 Ht2] | [E2 Ht2]]);
          unfold bind; rewrite E2; cbn [ret]; intros [= <- <-].
        left. rewrite Ht2. cbn. auto.
      * unfold try_except, bind.
        destruct (write_channel_shape (RETURN self) st1)
          as (st2 & _ & [[E2 Ht2] | [E2 Ht2]]);
          rewrite E2; cbn [ret is_socket_error]; discriminate.
  - destruct Hr as [Hr|[[t Hr]|[Hr|Hr]]]; try discriminate;
      injection Hr as ->; cbn [is_socket_error ret]; [|discriminate].
    intros [= <- <-]. right. rewrite Ht. cbn. auto.
Qed.

Lemma cleanup_loop_escapes (n : nat) :
  forall (output : string) (st : state) e st',
    HPProcurve.cleanup_loop self n output st = (Raise e, st') ->
    round_escape self e (trace st').
Proof.
  induction n as [|n IH]; intros output st e st'; cbn [HPProcurve.cleanup_loop].
  - discriminate.
  - unfold bind at 1.
    destruct (HPProcurve.cleanup_round self output st) as [[[[] out]|e0] st1] eqn:E.
    + apply IH.
    + discriminate.
    + intros [= <- <-]. eapply cleanup_round_escapes, E.
Qed.


(** Leaving configuration mode never raises. *)
Lemma leave_config_mode_returns (st : state) :
  exists st0, leave_config_mode st = (Return tt, st0).
Proof.
  unfold leave_config_mode, try_except, is_Exception, ret.
  destruct (bind _ _ st) as [[[]|e] st0]; eauto.
Qed.

(** When the logout command is sent and the loop is left without
    exception (its rounds used up, or a [break]), the session is marked
    finalized, once, as the last thing done. *)
Lemma cleanup_finalizes_after_loop (command : string) (st st0 st1 st2 : state) :
  leave_config_mode st = (Return tt, st0) ->
  write_channel (command ++ RETURN self) st0 = (Return tt, st1) ->
  HPProcurve.cleanup_loop self HPProcurve.cleanup_rounds EmptyString st1
  = (Return tt, st2) ->
  HPProcurve.cleanup self command st
  = (Return tt, log_event EvSessionLogFin (set_session_log_fin true st2)).
Proof.
  intros H0 H1 H2. unfold HPProcurve.cleanup.
  fold leave_config_mode.
  rewrite (bind_Return _ _ _ _ _ H0), (bind_Return _ _ _ _ _ H1),
    (bind_Return _ _ _ _ _ H2).
  reflexivity.
Qed.

(** An exception that leaves the loop leaves [cleanup], and the session
    is not marked finalized by this run. *)
Lemma cleanup_escape_skips_finalization (command : string)
  (st st0 st1 st2 : state) (e : exn) :
  leave_config_mode st = (Return tt, st0) ->
  write_channel (command ++ RETURN self) st0 = (Return tt, st1) ->
  HPProcurve.cleanup_loop self HPProcurve.cleanup_rounds EmptyString st1
  = (Raise e, st2) ->
  HPProcurve.cleanup self command st = (Raise e, st2)
  /\ round_escape self e (trace st2).
Proof.
  intros H0 H1 H2. split.
  - unfold HPProcurve.cleanup. fold leave_config_mode.
    rewrite (bind_Return _ _ _ _ _ H0), (bind_Return _ _ _ _ _ H1).
    now rewrite (bind_Raise _ _ _ _ _ H2).
  - eapply cleanup_loop_escapes, H2.
Qed.

End CleanupEscapes.

(** A read that meets a dead connection ends the loop in that round,
    without an exception. *)
Lemma cleanup_round_read_error :
  forall (self : session) (output : string) (st : state) (rest : list chunk),
    incoming st = ConnErr :: rest ->
    HPProcurve.cleanup_round self output st
    = (Return (HPProcurve.Break, output),
       log_event (EvRead (Raise socket_error))
         (set_incoming rest (log_event (EvSleep (3 # 10)) st))).
Proof.
  intros self output st rest H.
  unfold HPProcurve.cleanup_round, bind, try_except, sleep, emit, read_channel.
  cbn. rewrite H. reflexivity.
Qed.

(** C2, on a concrete run: the device asks [Do you want to log out],
    and the connection is dead when the answer [y] is sent. The
    socket error leaves [cleanup], and the session is not marked
    finalized. *)
Theorem cleanup_send_error_escapes :
  let st := connect [Data "sw# "; Data "Do you want to log out [y/n]? "]
              [false; false; true] in
  let run := @HPProcurve.cleanup (ScriptedBase example_session) example_session
               "logout" st in
  fst run = Raise socket_error
  /\ _session_log_fin (snd run) = false
  /\ count_session_log_fin (trace (snd run)) = 0%nat
  /\ trace (snd run) =
       [EvWriteFailed ("y" ++ LF);
        EvRead (Return "Do you want to log out [y/n]? ");
        EvSleep (3 # 10);
        EvWrite ("logout" ++ LF);
        EvRead (Return "sw# ");
        EvWrite LF].
Proof. vm_compute. repeat split. Qed.

(** C8 as stated fails: a read that shows both confirmation prompts is
    answered [y]. *)
Lemma cleanup_round_save_prompt_counterexample :
  ~ (forall (self : session) (output text : string) (rest : list chunk)
            (faults : list bool),
        PyStr.contains "Do you want to save the current" text = true ->
        writes_of (trace (snd (HPProcurve.cleanup_round self output
                                 (connect (Data text :: rest) faults))))
        = ["n" ++ RETURN self]).
Proof.
  intros H.
  specialize (H example_session EmptyString
                ("Do you want to log out [y/n]? y" ++ CR ++ LF ++
                 "Do you want to save the current configuration [y/n/^C]? ")
                [] [] eq_refl).
  vm_compute in H. discriminate H.
Qed.

(** C8, amended. In a round of the teardown loop whose read shows the
    save-configuration prompt and not the log-out prompt, the one write
    of the round is [n] followed by the line terminator; no other
    answer is written. *)
Theorem cleanup_round_save_prompt_answered_n :
  forall (self : session) (output text : string) (rest : list chunk)
         (faults : list bool),
    PyStr.contains "Do you want to save the current" text = true ->
    PyStr.contains "Do you want to log out" text = false ->
    writes_of (trace (snd (HPProcurve.cleanup_round self output
                             (connect (Data text :: rest) faults))))
    = ["n" ++ RETURN self].
Proof.
  intros self output text rest faults Hsave Hlogout.
  unfold HPProcurve.cleanup_round, bind, try_except, sleep, emit, read_channel.
  cbn. rewrite Hlogout, Hsave.
  unfold write_channel, ret. cbn.
  destruct faults as [|[|] faults]; reflexivity.
Qed.

Lemma cleanup_round_save_prompt_answered_n_witness :
  writes_of (trace (snd (HPProcurve.cleanup_round example_session EmptyString
                           (connect [Data "Do you want to save the current configuration [y/n/^C]? "] []))))
  = ["n" ++ LF].
Proof.
  apply (cleanup_round_save_prompt_answered_n example_session); reflexivity.
Defined.

(* ================================================================== *)
(** * More on [HuaweiBase.set_base_prompt] *)
(* ================================================================== *)

Section LastLine.

Lemma last_item_of_last_line (text line : string) :
  last_line_is text line ->
  PyStr.last_item (PyStr.split_go LF 0 text) = Some line.
Proof.
  intros [Hn [->|[before ->]]].
  - now rewrite split_go_one_line.
  - unfold LF. cbn [append]. fold re.newline.
    rewrite last_line_after_newline. now rewrite split_go_one_line.
Qed.

Lemma split_LF (text : string) :
  PyStr.split text LF = Some (PyStr.split_go LF 0 text).
Proof. reflexivity. Qed.

Lemma lstrip_keeps_end (x : string) (z : ascii) :
  PyStr.is_space z = false ->
  exists x', PyStr.lstrip (x ++ String z EmptyString) = x' ++ String z EmptyString.
Proof.
  intros Hz. induction x as [|c x IH].
  - exists EmptyString. cbn. now rewrite Hz.
  - cbn [append PyStr.lstrip]. destruct (PyStr.is_space c); [exact IH|].
    now exists (String c x).
Qed.

(** A line that ends in a character that is no whitespace keeps it as
    its last character when stripped. *)
Lemma last_char_strip (x : string) (z : ascii) :
  PyStr.is_space z = false ->
  PyStr.last_char (PyStr.strip (x ++ String z EmptyString))
  = Some (String z EmptyString).
Proof.
  intros Hz. unfold PyStr.strip.
  destruct (lstrip_keeps_end x z Hz) as [x' ->].
  rewrite rstrip_end by assumption. apply last_char_end.
Qed.

Lemma lstrip_all_space (ws : string) :
  all_space ws = true -> PyStr.lstrip ws = EmptyString.
Proof.
  induction ws as [|c ws IH]; [reflexivity|].
  cbn [all_space PyStr.lstrip]. intros H. apply andb_prop in H as [-> H].
  now apply IH.
Qed.

Lemma strip_all_space (ws : string) :
  all_space ws = true -> PyStr.strip ws = EmptyString.
Proof. intros H. unfold PyStr.strip. now rewrite lstrip_all_space. Qed.

Lemma rstrip_all_space (ws : string) :
  all_space ws = true -> PyStr.rstrip ws = EmptyString.
Proof.
  induction ws as [|c ws IH]; [reflexivity|].
  cbn [all_space PyStr.rstrip]. intros H. apply andb_prop in H as [Hc H].
  now rewrite (IH H), Hc.
Qed.

Lemma rstrip_trailing (y ws : string) (z : ascii) :
  PyStr.is_space z = false -> all_space ws = true ->
  PyStr.rstrip (y ++ String z ws) = y ++ String z EmptyString.
Proof.
  intros Hz Hs. induction y as [|c y IH].
  - cbn [append PyStr.rstrip]. now rewrite (rstrip_all_space _ Hs), Hz.
  - cbn [append PyStr.rstrip]. rewrite IH. destruct y; reflexivity.
Qed.

Lemma lstrip_leading (ws s : string) :
  all_space ws = true -> PyStr.lstrip (ws ++ s) = PyStr.lstrip s.
Proof.
  induction ws as [|c ws IH]; [reflexivity|].
  cbn [all_space append PyStr.lstrip]. intros H.
  apply andb_prop in H as [-> H]. now apply IH.
Qed.

(** Stripping a padded text whose first and last characters inside the
    padding are no whitespace removes the padding only. *)
Lemma strip_padded (ws1 ws2 mid : string) (a z : ascii) :
  all_space ws1 = true -> all_space ws2 = true ->
  PyStr.is_space a = false -> PyStr.is_space z = false ->
  PyStr.strip (ws1 ++ String a (mid ++ String z ws2))
  = String a (mid ++ String z EmptyString).
Proof.
  intros H1 H2 Ha Hz. unfold PyStr.strip.
  rewrite (lstrip_leading _ _ H1). cbn [PyStr.lstrip]. rewrite Ha.
  change (String a (mid ++ String z ws2)) with (String a mid ++ String z ws2).
  now rewrite rstrip_trailing.
Qed.

(** The same for a text that only has padding at its end. *)
Lemma strip_trailing (x ws : string) (z : ascii) :
  PyStr.is_space z = false -> all_space ws = true ->
  exists x', PyStr.strip (x ++ String z ws) = x' ++ String z EmptyString.
Proof.
  intros Hz Hs. unfold PyStr.strip.
  assert (H : exists x', PyStr.lstrip (x ++ String z ws) = x' ++ String z ws).
  { induction x as [|c x IH].
    - exists EmptyString. cbn. now rewrite Hz.
    - cbn [append PyStr.lstrip]. destruct (PyStr.is_space c); [exact IH|].
      now exists (String c x). }
  destruct H as [x' ->]. exists x'. now apply rstrip_trailing.
Qed.

End LastLine.

Section SetBasePromptMore.
Context {base : CiscoBaseConnection}.
Variable self : session.
Hypothesis response_return : RESPONSE_RETURN self = LF.

Lemma prompt_of_text_last_line (pri alt text line : string) :
  last_line_is text line ->
  prompt_of_text self pri alt text = prompt_of_text self pri alt line.
Proof.
  intros H. unfold prompt_of_text. rewrite response_return, !split_LF.
  rewrite (last_item_of_last_line _ _ H).
  destruct H as [Hn _]. now rewrite split_go_one_line.
Qed.

(** A terminated line that does not start with [H]: the first and the
    last character go, whatever the first one is. *)
Lemma prompt_of_framed_line (a z : ascii) (ws1 ws2 mid : string) :
  z = ">"%char \/ z = "]"%char ->
  all_space ws1 = true -> all_space ws2 = true ->
  PyStr.is_space a = false ->
  Ascii.eqb "H" a = false ->
  has_char re.newline (ws1 ++ String a (mid ++ String z ws2)) = false ->
  prompt_of_text self ">" "]" (ws1 ++ String a (mid ++ String z ws2))
  = Return (PyStr.strip mid).
Proof.
  intros Hz H1 H2 Ha HH Hn.
  assert (Hzs : PyStr.is_space z = false) by (destruct Hz; subst z; reflexivity).
  unfold prompt_of_text. rewrite response_return, split_LF.
  rewrite split_go_one_line by assumption.
  cbn [PyStr.last_item rev app].
  rewrite (strip_padded ws1 ws2 mid a z H1 H2 Ha Hzs).
  rewrite has_char_append in Hn. apply orb_false_elim in Hn as [_ Hn].
  cbn [has_char] in Hn. apply orb_false_elim in Hn as [Han Hn].
  rewrite has_char_append in Hn. apply orb_false_elim in Hn as [Hmn _].
  change (String a (mid ++ String z EmptyString))
    with (String a mid ++ String z EmptyString) at 1.
  rewrite last_char_end.
  assert (Hcheck : negb (String.eqb (String z EmptyString) ">"
                         || String.eqb (String z EmptyString) "]") = false)
    by (destruct Hz; subst z; reflexivity).
  assert (Hzn : has_char re.newline (mid ++ String z EmptyString) = false).
  { rewrite has_char_append, Hmn. destruct Hz; subst z; reflexivity. }
  rewrite Hcheck, compile_ha_prefix_sub.
  rewrite sub_ha_prefix_other_start by assumption.
  now rewrite slice_inner.
Qed.

End SetBasePromptMore.

Section SetBasePromptState.
Context {base : CiscoBaseConnection}.
Variable self : session.

Lemma clear_buffer_base_prompt (st : state) :
  base_prompt (snd (clear_buffer st)) = base_prompt st.
Proof. unfold clear_buffer. now destruct (incoming st) as [|[] rest]. Qed.

Lemma write_channel_base_prompt (data : string) (st : state) :
  base_prompt (snd (write_channel data st)) = base_prompt st.
Proof. unfold write_channel. now destruct (send_faults st) as [|[|] fs]. Qed.

Lemma read_channel_base_prompt (st : state) :
  base_prompt (snd (read_channel st)) = base_prompt st.
Proof. unfold read_channel. now destruct (incoming st) as [|c rest]. Qed.

Lemma read_prompt_base_prompt (delay_factor : Q) (st : state) :
  base_prompt (snd (read_prompt self delay_factor st)) = base_prompt st.
Proof.
  unfold read_prompt, bind.
  pose proof (clear_buffer_base_prompt st) as H1.
  destruct (clear_buffer st) as [[[]|e] s1]; [|exact H1].
  pose proof (write_channel_base_prompt (RETURN self) s1) as H2.
  destruct (write_channel (RETURN self) s1) as [[[]|e] s2];
    cbn [snd] in *; [|congruence].
  unfold sleep, emit.
  pose proof (read_channel_base_prompt
                (log_event (EvSleep ((5 # 10) * select_delay_factor delay_factor)) s2))
    as H3.
  destruct (read_channel _) as [r s3]. cbn [snd] in *.
  destruct r; cbn [snd]; rewrite H3; cbn; congruence.
Qed.

End SetBasePromptState.

(** X1. When the last line read is, between optional whitespace, one
    character (no whitespace, not [H]), a text, and [>] or [[]],
    [set_base_prompt] returns and stores the text in between, stripped
    of whitespace: [<host>] and [[host]] give [host], and a line without
    opening bracket loses its first character all the same. *)
Theorem set_base_prompt_drops_first_and_last :
  forall (base : CiscoBaseConnection) (self : session) (delay_factor : Q)
         (st st1 : state) (text ws1 mid ws2 : string) (a z : ascii),
    RESPONSE_RETURN self = LF ->
    last_line_is text (ws1 ++ String a (mid ++ String z ws2)) ->
    all_space ws1 = true -> all_space ws2 = true ->
    z = ">"%char \/ z = "]"%char ->
    PyStr.is_space a = false ->
    Ascii.eqb "H" a = false ->
    read_prompt self delay_factor st = (Return text, st1) ->
    Huawei.set_base_prompt self ">" "]" delay_factor st
    = (Return (PyStr.strip mid), set_base_prompt_attr (PyStr.strip mid) st1).
Proof.
  intros base self delay_factor st st1 text ws1 mid ws2 a z HR Hl H1 H2 Hz Ha
    HH Hr.
  rewrite (set_base_prompt_after_read _ _ _ _ _ _ _ Hr).
  rewrite (prompt_of_text_last_line self HR _ _ _ _ Hl).
  destruct Hl as [Hn _].
  now rewrite (prompt_of_framed_line self HR a z ws1 ws2 mid Hz H1 H2 Ha HH Hn).
Qed.

Lemma set_base_prompt_drops_first_and_last_witness :
  fst (@Huawei.set_base_prompt (ScriptedBase example_session) example_session
         ">" "]" 1
         (connect [Data "old"; Data ("Info: ready" ++ LF ++ " <sw1> ")] []))
  = Return "sw1".
Proof.
  exact (f_equal fst
           (set_base_prompt_drops_first_and_last (ScriptedBase example_session)
              example_session 1
              (connect [Data "old"; Data ("Info: ready" ++ LF ++ " <sw1> ")] [])
              _ ("Info: ready" ++ LF ++ " <sw1> ") " " "sw1" " "
              "<"%char ">"%char eq_refl
              (conj eq_refl (or_intror (ex_intro _ "Info: ready" eq_refl)))
              eq_refl eq_refl (or_introl eq_refl) eq_refl eq_refl eq_refl)).
Defined.

(** X2. Only the last line of the read counts: what precedes its last
    newline never changes what [set_base_prompt] returns or raises. *)
Theorem set_base_prompt_uses_last_line_only :
  forall (base : CiscoBaseConnection) (self : session)
         (pri alt : string) (delay_factor : Q)
         (st st1 st' st1' : state) (text line : string),
    RESPONSE_RETURN self = LF ->
    last_line_is text line ->
    read_prompt self delay_factor st = (Return text, st1) ->
    read_prompt self delay_factor st' = (Return line, st1') ->
    fst (Huawei.set_base_prompt self pri alt delay_factor st)
    = fst (Huawei.set_base_prompt self pri alt delay_factor st').
Proof.
  intros base self pri alt delay_factor st st1 st' st1' text line HR Hl Hr Hr'.
  rewrite (set_base_prompt_after_read _ _ _ _ _ _ _ Hr).
  rewrite (set_base_prompt_after_read _ _ _ _ _ _ _ Hr').
  rewrite (prompt_of_text_last_line self HR _ _ _ _ Hl).
  now destruct (prompt_of_text self pri alt line).
Qed.

Lemma set_base_prompt_uses_last_line_only_witness :
  fst (@Huawei.set_base_prompt (ScriptedBase example_session) example_session
         ">" "]" 1
         (connect [Data "old"; Data ("Warning: x>" ++ LF ++ "[~sw1]")] []))
  = fst (@Huawei.set_base_prompt (ScriptedBase example_session) example_session
           ">" "]" 1 (connect [Data "old"; Data "[~sw1]"] [])).
Proof.
  exact (set_base_prompt_uses_last_line_only (ScriptedBase example_session)
           example_session ">" "]" 1
           (connect [Data "old"; Data ("Warning: x>" ++ LF ++ "[~sw1]")] []) _
           (connect [Data "old"; Data "[~sw1]"] []) _
           ("Warning: x>" ++ LF ++ "[~sw1]") "[~sw1]" eq_refl
           (conj eq_refl (or_intror (ex_intro _ "Warning: x>" eq_refl)))
           eq_refl eq_refl).
Defined.

(** X3. A read whose last line is blank (nothing after the last
    newline, or whitespace only) makes [set_base_prompt] raise
    IndexError, whatever the terminators asked for. *)
Theorem set_base_prompt_blank_last_line :
  forall (base : CiscoBaseConnection) (self : session)
         (pri alt : string) (delay_factor : Q)
         (st st1 : state) (text ws : string),
    RESPONSE_RETURN self = LF ->
    last_line_is text ws ->
    all_space ws = true ->
    read_prompt self delay_factor st = (Return text, st1) ->
    Huawei.set_base_prompt self pri alt delay_factor st = (Raise IndexError, st1).
Proof.
  intros base self pri alt delay_factor st st1 text ws HR Hl Hs Hr.
  apply (set_base_prompt_empty_line self pri alt delay_factor st st1 text
           (PyStr.split_go LF 0 text) ws Hr).
  - rewrite HR. apply split_LF.
  - now apply last_item_of_last_line.
  - now apply strip_all_space.
Qed.

Lemma set_base_prompt_blank_last_line_witness :
  fst (@Huawei.set_base_prompt (ScriptedBase example_session) example_session
         ">" "]" 1 (connect [Data "old"; Data ("<sw1>" ++ CR ++ LF)] []))
  = Raise IndexError.
Proof.
  exact (f_equal fst
           (set_base_prompt_blank_last_line (ScriptedBase example_session)
              example_session ">" "]" 1
              (connect [Data "old"; Data ("<sw1>" ++ CR ++ LF)] []) _
              ("<sw1>" ++ CR ++ LF) EmptyString eq_refl
              (conj eq_refl (or_intror (ex_intro _ ("<sw1>" ++ CR) eq_refl)))
              eq_refl eq_refl)).
Defined.

(** X4. A last line that ends, before optional whitespace, in a
    character other than [>] and [[]], [#] for one, makes
    [set_base_prompt] raise the ValueError [Router prompt not found:]
    followed by the stripped line; no base prompt is derived. *)
Theorem set_base_prompt_other_final_character :
  forall (base : CiscoBaseConnection) (self : session) (delay_factor : Q)
         (st st1 : state) (text x ws : string) (z : ascii),
    RESPONSE_RETURN self = LF ->
    last_line_is text (x ++ String z ws) ->
    all_space ws = true ->
    PyStr.is_space z = false ->
    z <> ">"%char -> z <> "]"%char ->
    read_prompt self delay_factor st = (Return text, st1) ->
    Huawei.set_base_prompt self ">" "]" delay_factor st
    = (Raise (ValueError ("Router prompt not found: "
                          ++ PyStr.strip (x ++ String z ws))), st1).
Proof.
  intros base self delay_factor st st1 text x ws z HR Hl Hs Hz H1 H2 Hr.
  apply (set_base_prompt_rejects_other_final_character self delay_factor
           st st1 text (PyStr.split_go LF 0 text) (x ++ String z ws)
           (String z EmptyString) Hr).
  - rewrite HR. apply split_LF.
  - now apply last_item_of_last_line.
  - destruct (strip_trailing x ws z Hz Hs) as [x' ->]. apply last_char_end.
  - intros [= E]. now apply H1.
  - intros [= E]. now apply H2.
Qed.

Lemma set_base_prompt_other_final_character_witness :
  fst (@Huawei.set_base_prompt (ScriptedBase example_session) example_session
         ">" "]" 1 (connect [Data "old"; Data "sw1# "] []))
  = Raise (ValueError "Router prompt not found: sw1#").
Proof.
  refine (f_equal fst
            (set_base_prompt_other_final_character
               (ScriptedBase example_session) example_session 1
               (connect [Data "old"; Data "sw1# "] []) _ "sw1# " "sw1" " "
               "#"%char eq_refl (conj eq_refl (or_introl eq_refl))
               eq_refl eq_refl _ _ eq_refl)); discriminate.
Defined.

(** X5. [set_base_prompt] assigns [base_prompt] only when it succeeds:
    a run that returns has stored what it returns, and a run that
    raises has left the attribute as it was. *)
Theorem set_base_prompt_assigns_on_success_only :
  forall (base : CiscoBaseConnection) (self : session)
         (pri alt : string) (delay_factor : Q) (st : state),
    let run := Huawei.set_base_prompt self pri alt delay_factor st in
    match fst run with
    | Return prompt => base_prompt (snd run) = prompt
    | Raise _ => base_prompt (snd run) = base_prompt st
    end.
Proof.
  intros base self pri alt delay_factor st run. subst run.
  pose proof (read_prompt_base_prompt self delay_factor st) as Hb.
  destruct (read_prompt self delay_factor st) as [[text|e] st1] eqn:Hr.
  - rewrite (set_base_prompt_after_read _ _ _ _ _ _ _ Hr).
    destruct (prompt_of_text self pri alt text); [reflexivity | exact Hb].
  - rewrite (read_prompt_raises _ _ _ _ _ _ _ Hr). exact Hb.
Qed.

(* ================================================================== *)
(** * More on [HuaweiBase.strip_ansi_escape_codes] *)
(* ================================================================== *)

Section ArtifactFacts.

Lemma set_matches_digit (c : ascii) :
  re.set_matches 0 false [re.CDigit] c = PyStr.is_digit c.
Proof.
  unfold re.set_matches. change (re.has_flag 0 re.I) with false.
  cbn. now rewrite orb_false_r.
Qed.

(** [\d+D] after the first digit: the repetition takes the remaining
    digits and stops at the [D]. *)
Lemma star_digits_to_D (ds rest : string) :
  all_digits ds = true ->
  forall (n : nat) (prev : option ascii),
    (String.length ds <= n)%nat ->
    re.star_loop (re.m 0 (re.CSet false [re.CDigit]))
      (re.m 0 (re.Lit "D") re.accept) n prev (ds ++ String "D" rest)
    = Some rest.
Proof.
  induction ds as [|c ds IH]; intros Hd n prev Hn.
  - cbn [append]. destruct n; cbn [re.star_loop re.m].
    + reflexivity.
    + rewrite set_matches_digit. reflexivity.
  - cbn [all_digits] in Hd. apply andb_prop in Hd as [Hc Hd].
    destruct n as [|n]; [cbn in Hn; lia|].
    cbn [append re.star_loop re.m]. rewrite set_matches_digit, Hc.
    cbn [String.length] in *.
    replace (String.length (ds ++ String "D" rest)
             <? S (String.length (ds ++ String "D" rest)))%nat with true
      by (symmetry; apply Nat.ltb_lt; lia).
    rewrite IH; [reflexivity | assumption | lia].
Qed.

(** The pattern of the driver matches the artifact, and all of it. *)
Lemma space_cursor_left_matches (d : ascii) (ds rest : string)
  (prev : option ascii) :
  PyStr.is_digit d = true -> all_digits ds = true ->
  re.match_here 0 space_cursor_left_regex prev
    (cursor_left_artifact (String d ds) ++ rest)
  = Some rest.
Proof.
  intros Hd Hds. unfold re.match_here, space_cursor_left_regex,
    cursor_left_artifact.
  cbn [append]. rewrite append_assoc. cbn [append re.m].
  change (re.lit_matches 0 " " " ") with true.
  match goal with
  | |- context [re.lit_matches 0 ?x ESC] =>
      change (re.lit_matches 0 x ESC) with true
  end.
  change (re.lit_matches 0 "[" "[") with true. cbv iota.
  rewrite set_matches_digit, Hd.
  apply star_digits_to_D; [assumption|].
  rewrite length_append. lia.
Qed.

(** The pattern needs an ESC as second character. *)
Lemma space_cursor_left_needs_esc_second (prev : option ascii)
  (c c' : ascii) (s : string) :
  Ascii.eqb c' ESC = false ->
  re.match_here 0 space_cursor_left_regex prev (String c (String c' s)) = None.
Proof.
  intros H. unfold re.match_here, space_cursor_left_regex. cbn [re.m].
  rewrite (lit_ESC_mismatch _ H). now destruct (re.lit_matches 0 " " c).
Qed.

(** Characters still to be dropped are dropped unseen. *)
Lemma sub_from_skip (flags : Z) (r : re.regex) (repl x s : string) :
  forall prev, exists prev',
    re.sub_from flags r repl (String.length x) prev (x ++ s)
    = re.sub_from flags r repl 0 prev' s.
Proof.
  induction x as [|c x IH]; intros prev.
  - now exists prev.
  - cbn [String.length append re.sub_from]. apply IH.
Qed.

(** The substitution of the driver on one artifact between two texts
    without ESC: the artifact goes, space included. *)
Lemma sub_space_cursor_left_artifact (a b ds : string) (d : ascii) :
  has_char ESC a = false -> has_char ESC b = false ->
  PyStr.is_digit d = true -> all_digits ds = true ->
  forall prev,
    re.sub_from 0 space_cursor_left_regex EmptyString 0 prev
      (a ++ cursor_left_artifact (String d ds) ++ b)
    = a ++ b.
Proof.
  intros Ha Hb Hd Hds. induction a as [|c a IH]; intros prev.
  - cbn [append].
    pose proof (space_cursor_left_matches d ds b prev Hd Hds) as Hm.
    set (x := String ESC ("[" ++ String d ds ++ "D")).
    assert (E : cursor_left_artifact (String d ds) ++ b = String " " (x ++ b)).
    { unfold cursor_left_artifact, x. cbn [append]. now rewrite !append_assoc. }
    rewrite E in *. cbn [re.sub_from]. rewrite Hm.
    cbn [String.length]. rewrite length_append.
    replace (S (String.length x + String.length b) - String.length b)%nat
      with (S (String.length x)) by lia.
    cbn [append].
    destruct (sub_from_skip 0 space_cursor_left_regex EmptyString x b
                (Some " "%char)) as [prev' ->].
    now apply sub_space_cursor_left_without_esc.
  - cbn [has_char] in Ha. apply orb_false_elim in Ha as [Hc Ha].
    cbn [append re.sub_from].
    assert (Hm : re.match_here 0 space_cursor_left_regex prev
                   (String c (a ++ cursor_left_artifact (String d ds) ++ b))
                 = None).
    { destruct a as [|c' a].
      - cbn [append]. unfold cursor_left_artifact. cbn [append].
        now apply space_cursor_left_needs_esc_second.
      - cbn [append]. apply space_cursor_left_needs_esc_second.
        cbn [has_char] in Ha. now apply orb_false_elim in Ha as [Ha _]. }
    rewrite Hm. now rewrite (IH Ha).
Qed.

End ArtifactFacts.

(** X6. A text without ESC character comes out of escape-artifact
    stripping as it went in, over any generic stripper that returns
    such a text as it is. *)
Theorem strip_ansi_escape_codes_plain_text :
  forall (base : CiscoBaseConnection),
    (forall s : string,
        has_char ESC s = false -> super_strip_ansi_escape_codes s = s) ->
    forall s : string,
      has_char ESC s = false -> Huawei.strip_ansi_escape_codes s = s.
Proof.
  intros base Hgen s Hs. rewrite strip_ansi_escape_codes_unfold.
  rewrite (sub_space_cursor_left_without_esc _ _ Hs). now apply Hgen.
Qed.

Lemma strip_ansi_escape_codes_plain_text_witness :
  @Huawei.strip_ansi_escape_codes (ScriptedBase example_session)
    "<sw1> display version [1D"
  = "<sw1> display version [1D".
Proof.
  apply (strip_ansi_escape_codes_plain_text (ScriptedBase example_session)).
  - exact generic_strip_without_esc.
  - vm_compute; reflexivity.
Defined.

(** X7. The artifact the driver is written for, a space followed by
    ESC [ digits D, is removed whole, the space with the escape
    sequence: between two texts without ESC character only the two
    texts are left (over any generic stripper that returns a text
    without ESC as it is). *)
Theorem strip_ansi_escape_codes_removes_artifact :
  forall (base : CiscoBaseConnection),
    (forall s : string,
        has_char ESC s = false -> super_strip_ansi_escape_codes s = s) ->
    forall (a b ds : string) (d : ascii),
      has_char ESC a = false -> has_char ESC b = false ->
      PyStr.is_digit d = true -> all_digits ds = true ->
      Huawei.strip_ansi_escape_codes
        (a ++ cursor_left_artifact (String d ds) ++ b)
      = a ++ b.
Proof.
  intros base Hgen a b ds d Ha Hb Hd Hds.
  rewrite strip_ansi_escape_codes_unfold.
  rewrite (sub_space_cursor_left_artifact a b ds d Ha Hb Hd Hds).
  apply Hgen. now rewrite has_char_append, Ha, Hb.
Qed.

Lemma strip_ansi_escape_codes_removes_artifact_witness :
  @Huawei.strip_ansi_escape_codes (ScriptedBase example_session)
    ("<sw1>" ++ cursor_left_artifact "16" ++ "display")
  = "<sw1>display".
Proof.
  apply (strip_ansi_escape_codes_removes_artifact (ScriptedBase example_session)
           generic_strip_without_esc "<sw1>" "display" "6" "1"%char);
    vm_compute; reflexivity.
Defined.

(* ================================================================== *)
(** * More on [HuaweiSSH.special_login_handler] *)
(* ================================================================== *)

(** X8. The SSH login handler answers [N] after every read that
    returns: the test it makes on the output cannot fail, since the read
    returns only a text its pattern matches. The handler is its read,
    then the write of [N] and a newline, then the clearing of the
    buffer; a read that raises ends it with nothing written. *)
Theorem special_login_handler_always_answers_N :
  forall (delay_factor : Q) (st : state),
    Huawei.special_login_handler delay_factor st
    = (read_until_pattern ssh_login_pattern default_read_timeout 0 ;;
       write_channel ("N" ++ LF) ;;
       clear_buffer) st.
Proof.
  intros delay_factor st.
  destruct (read_until_pattern ssh_login_pattern default_read_timeout 0 st)
    as [[output|e] st1] eqn:Hread.
  - rewrite (bind_Return _ _ _ _ _ Hread).
    unfold Huawei.special_login_handler. fold ssh_login_pattern.
    rewrite (bind_Return _ _ _ _ _ Hread).
    rewrite (read_until_pattern_matches _ _ _ _ _ _ Hread).
    cbn [lift_re]. unfold bind at 1. cbn [ret].
    now rewrite bind_ret_unit.
  - rewrite (bind_Raise _ _ _ _ _ Hread).
    unfold Huawei.special_login_handler. fold ssh_login_pattern.
    now rewrite (bind_Raise _ _ _ _ _ Hread).
Qed.

(* ================================================================== *)
(** * More on [HuaweiTelnet.telnet_login] *)
(* ================================================================== *)

Section TelnetLoginMore.
Context {base : CiscoBaseConnection}.
Variable self : session.
Variables pri alt username_pattern pwd_pattern : string.
Variable delay_factor : Q.

(** A blocking read whose pattern matches the first text that arrives
    returns that text. *)
Lemma read_until_pattern_first_chunk (pattern : string) (read_timeout : Q)
  (flags : Z) (st : state) (text : string) (rest : list chunk) :
  incoming st = Data text :: rest ->
  re.search pattern text flags = inr true ->
  read_until_pattern pattern read_timeout flags st
  = (Return text,
     log_event (EvReadUntil pattern flags (Return text)) (set_incoming rest st)).
Proof.
  intros Hi Hs. unfold read_until_pattern, re.search in *.
  destruct (re.compile pattern) as [e|r]; [discriminate|].
  injection Hs as Hs. rewrite Hi. cbn [read_until_go append].
  now rewrite Hs.
Qed.

Lemma to_nat_nonpos (z : Z) : z <= 0 -> Z.to_nat z = 0%nat.
Proof. destruct z; cbn; lia. Qed.

Lemma to_nat_pos (z : Z) : 0 < z -> exists n, Z.to_nat z = S n.
Proof.
  intros H. exists (Nat.pred (Z.to_nat z)).
  assert (0 < Z.to_nat z)%nat by lia. lia.
Qed.

(** With a bound of zero or less the method is its final probe. *)
Lemma telnet_login_without_rounds (max_loops : Z) (st : state) :
  max_loops <= 0 ->
  Huawei.telnet_login self pri alt username_pattern pwd_pattern delay_factor
    max_loops st
  = final_probe self pri alt delay_factor EmptyString st.
Proof.
  intros H. unfold Huawei.telnet_login, final_probe.
  rewrite (to_nat_nonpos _ H). reflexivity.
Qed.

Ltac io_done :=
  cbn [snd trace log_event set_closed];
  repeat match goal with
    | H : trace ?s = _ |- context [trace ?s] => rewrite H
    end;
  unfold count_blocking_reads;
  cbn [filter is_blocking_read List.length writes_of trace log_event set_closed];
  repeat match goal with
    | H : trace ?s = _ |- context [trace ?s] => rewrite H
    end;
  cbn [filter is_blocking_read List.length writes_of is_login_failure];
  repeat match goal with
    | H : closed ?s = _ |- context [closed ?s] => rewrite H
    end;
  cbn [closed log_event set_closed];
  repeat match goal with
    | H : closed ?s = _ |- context [closed ?s] => rewrite H
    end;
  repeat split; reflexivity.

Lemma final_probe_io (return_msg : string) (st : state) :
  forall r st',
    final_probe self pri alt delay_factor return_msg st = (r, st') ->
    count_blocking_reads (trace st') = count_blocking_reads (trace st)
    /\ writes_of (trace st') = TELNET_RETURN self :: writes_of (trace st)
    /\ match r with
       | Raise e =>
           if is_login_failure e
           then e = login_failure self /\ closed st' = true
           else closed st' = closed st
       | Return _ => closed st' = closed st
       end.
Proof.
  intros r st'. unfold final_probe.
  destruct (write_channel_shape (TELNET_RETURN self) st)
    as (st1 & Hc1 & [[E Ht1] | [E Ht1]]).
  2:{ rewrite (bind_Raise _ _ _ _ _ E). intros [= <- <-]. io_done. }
  rewrite (bind_Return _ _ _ _ _ E). clear E.
  unfold bind at 1, sleep, emit.
  destruct (read_channel_shape
              (log_event (EvSleep ((5 # 10) * select_delay_factor delay_factor)) st1))
    as (r0 & st2 & E & Hc2 & Ht2 & Hn).
  destruct r0 as [out|e].
  2:{ rewrite (bind_Raise _ _ _ _ _ E). intros [= <- <-].
      rewrite (Hn e eq_refl). io_done. }
  rewrite (bind_Return _ _ _ _ _ E). clear E.
  unfold bind at 1. rewrite prompt_found_spec.
  destruct (terminator_found pri alt out) as [e|[|]];
    unfold bind, remote_conn_close, raise, ret; intros [= <- <-]; io_done.
Qed.


End TelnetLoginMore.

(** X9. With a bound [max_loops] of zero or less, [telnet_login] sends
    no credentials: it makes no blocking read, and the only thing it
    writes is the line terminator of its final probe. *)
Theorem telnet_login_without_rounds_sends_nothing :
  forall (base : CiscoBaseConnection) (self : session)
         (pri alt username_pattern pwd_pattern : string)
         (delay_factor : Q) (max_loops : Z)
         (script : list chunk) (faults : list bool),
    max_loops <= 0 ->
    let run := Huawei.telnet_login self pri alt username_pattern pwd_pattern
                 delay_factor max_loops (connect script faults) in
    count_blocking_reads (trace (snd run)) = 0%nat
    /\ writes_of (trace (snd run)) = [TELNET_RETURN self].
Proof.
  intros base self pri alt username_pattern pwd_pattern delay_factor max_loops
    script faults H run. subst run.
  rewrite telnet_login_without_rounds by assumption.
  destruct (final_probe self pri alt delay_factor EmptyString
              (connect script faults)) as [r st'] eqn:E.
  destruct (final_probe_io self pri alt delay_factor _ _ _ _ E) as (H1 & H2 & _).
  now split.
Qed.

Lemma telnet_login_without_rounds_sends_nothing_witness :
  let run := @Huawei.telnet_login (ScriptedBase example_session)
               example_session "]\s*$" ">\s*$"
               "(?:user:|username|login|user name)" "assword" 1 0
               (connect [Data "<sw1>"] []) in
  count_blocking_reads (trace (snd run)) = 0%nat
  /\ writes_of (trace (snd run)) = [CR ++ LF].
Proof.
  apply (telnet_login_without_rounds_sends_nothing
           (ScriptedBase example_session) example_session).
  lia.
Defined.



(** X11. A login that succeeds in the first round. On a healthy
    connection where the first three texts to arrive are matched by the
    username pattern, by the password pattern and by the combined
    pattern, the third showing a terminator and no password-change
    prompt, [telnet_login] returns the three texts in that order,
    having sent the username after the first and the password after the
    second, and nothing else: no newline, no wait, no probe. *)
Theorem telnet_login_first_round :
  forall (base : CiscoBaseConnection) (self : session)
         (pri alt username_pattern pwd_pattern : string)
         (delay_factor : Q) (max_loops : Z)
         (u p t pw : string) (rest : list chunk),
    0 < max_loops ->
    password self = Some pw ->
    re.search username_pattern u re.I = inr true ->
    re.search pwd_pattern p re.I = inr true ->
    re.search (combined_pattern pri alt) t 0 = inr true ->
    re.search password_change_prompt t 0 = inr false ->
    terminator_found pri alt t = inr true ->
    Huawei.telnet_login self pri alt username_pattern pwd_pattern
      delay_factor max_loops
      (connect (Data u :: Data p :: Data t :: rest) [])
    = (Return ((u ++ p) ++ t),
       mkState rest [] false
         [EvReadUntil (combined_pattern pri alt) 0 (Return t);
          EvWrite (pw ++ TELNET_RETURN self);
          EvReadUntil pwd_pattern re.I (Return p);
          EvWrite (username self ++ TELNET_RETURN self);
          EvReadUntil username_pattern re.I (Return u)]
         EmptyString false).
Proof.
  intros base self pri alt username_pattern pwd_pattern delay_factor max_loops
    u p t pw rest Hm Hpw Hu Hp Ht Hc Hf.
  unfold Huawei.telnet_login. cbv zeta.
  destruct (to_nat_pos _ Hm) as [n ->].
  cbn [Huawei.login_loop]. fold password_change_prompt.
  fold (combined_pattern pri alt).
  rewrite !bind_assoc.
  match goal with
  | |- bind (try_except ?a ?c ?h) ?k ?s = _ =>
      assert (E : a s
                  = (Return (inl ((u ++ p) ++ t)),
                     mkState rest [] false
                       [EvReadUntil (combined_pattern pri alt) 0 (Return t);
                        EvWrite (pw ++ TELNET_RETURN self);
                        EvReadUntil pwd_pattern re.I (Return p);
                        EvWrite (username self ++ TELNET_RETURN self);
                        EvReadUntil username_pattern re.I (Return u)]
                       EmptyString false))
  end.
  { unfold Huawei.login_attempt.
    erewrite bind_Return
      by (apply read_until_pattern_first_chunk; [reflexivity | exact Hu]).
    erewrite bind_Return by reflexivity.
    erewrite bind_Return
      by (apply read_until_pattern_first_chunk; [reflexivity | exact Hp]).
    rewrite Hpw. erewrite bind_Return by reflexivity.
    erewrite bind_Return by reflexivity.
    erewrite bind_Return
      by (apply read_until_pattern_first_chunk; [reflexivity | exact Ht]).
    rewrite Hc. cbn [lift_re]. erewrite bind_Return by reflexivity.
    erewrite bind_Return by reflexivity. cbv beta iota.
    unfold bind at 1. rewrite prompt_found_spec, Hf. reflexivity. }
  unfold bind at 1, try_except. rewrite E. reflexivity.
Qed.

Lemma telnet_login_first_round_witness :
  @Huawei.telnet_login (ScriptedBase example_session) example_session
    "]\s*$" ">\s*$" "(?:user:|username|login|user name)" "assword" 1 20
    (connect [Data "Login:"; Data "Password:"; Data "<sw1>"] [])
  = (Return "Login:Password:<sw1>",
     mkState [] [] false
       [EvReadUntil (combined_pattern "]\s*$" ">\s*$") 0 (Return "<sw1>");
        EvWrite ("pw" ++ CR ++ LF);
        EvReadUntil "assword" re.I (Return "Password:");
        EvWrite ("admin" ++ CR ++ LF);
        EvReadUntil "(?:user:|username|login|user name)" re.I (Return "Login:")]
       EmptyString false).
Proof.
  apply (telnet_login_first_round (ScriptedBase example_session)
           example_session "]\s*$" ">\s*$"
           "(?:user:|username|login|user name)" "assword" 1 20
           "Login:" "Password:" "<sw1>" "pw" []);
    try (vm_compute; reflexivity); lia.
Defined.

Section TelnetLoginBudget.
Context {base : CiscoBaseConnection}.
Variable self : session.
Variables pri alt username_pattern pwd_pattern : string.

Ltac budget_done :=
  unfold login_budget, Huawei.login_failed, bind, remote_conn_close, raise,
    ret, sleep, emit;
  cbn [fst snd is_login_failure is_EOFError trace closed log_event set_closed];
  repeat match goal with
    | H : trace ?s = _ |- context [trace ?s] => rewrite H
    | H : closed ?s = _ |- context [closed ?s] => rewrite H
    end;
  unfold count_blocking_reads;
  cbn [filter is_blocking_read List.length writes_of trace closed log_event
         set_closed];
  repeat match goal with
    | H : trace ?s = _ |- context [trace ?s] => rewrite H
    | H : closed ?s = _ |- context [closed ?s] => rewrite H
    end;
  cbn [filter is_blocking_read List.length writes_of];
  repeat split; try reflexivity; try lia.

Ltac budget_read :=
  rewrite try_except_bind;
  match goal with
  | |- context [read_until_pattern ?p ?t ?f ?s] =>
      let r := fresh "r" in
      let s' := fresh "st" in
      let E := fresh "E" in
      let Hc := fresh "Hc" in
      let Ht := fresh "Ht" in
      let Hn := fresh "Hn" in
      destruct (read_until_pattern_shape p t f s) as (r & s' & E & Hc & Ht & Hn);
      rewrite E; clear E;
      destruct r as [?out | ?e]; cbv beta iota;
      [ clear Hn
      | let Hx := fresh "Hx" in
        pose proof (Hn e eq_refl) as Hx; destruct e; try discriminate Hx;
        clear Hx Hn; solve [budget_done] ]
  end.

Ltac budget_write :=
  rewrite try_except_bind;
  match goal with
  | |- context [write_channel ?d ?s] =>
      let s' := fresh "st" in
      let E := fresh "E" in
      let Hc := fresh "Hc" in
      let Ht := fresh "Ht" in
      destruct (write_channel_shape d s) as (s' & Hc & [[E Ht] | [E Ht]]);
      rewrite E; clear E; cbv beta iota;
      [ | solve [budget_done] ]
  end.

Lemma login_round_budget (delay_factor : Q) (st : state) (return_msg : string) :
  login_budget self 1 st
    (try_except
       (Huawei.login_attempt self pri alt username_pattern pwd_pattern
          delay_factor password_change_prompt (combined_pattern pri alt)
          return_msg)
       is_EOFError (Huawei.login_failed self) st).
Proof.
  unfold Huawei.login_attempt.
  budget_read.
  budget_write.
  budget_read.
  rewrite try_except_bind.
  destruct (password self) as [pw|]; cbn [assert_not_none ret raise];
    [|solve [budget_done]].
  budget_write.
  budget_read.
  rewrite try_except_bind.
  destruct (password_change_search out1) as [change Hchange].
  rewrite Hchange. clear Hchange. cbn [lift_re ret].
  destruct change.
  - rewrite try_except_bind_assoc. budget_write.
    rewrite try_except_bind_assoc. budget_read.
    rewrite try_except_bind. cbn [ret].
    rewrite try_except_bind, prompt_found_spec.
    destruct (terminator_found pri alt out2) as [e|[|]].
    + budget_done.
    + rewrite try_except_ret. budget_done.
    + budget_write. rewrite try_except_bind. unfold sleep, emit.
      rewrite try_except_ret. budget_done.
  - rewrite try_except_bind. cbn [ret].
    rewrite try_except_bind, prompt_found_spec.
    destruct (terminator_found pri alt out1) as [e|[|]].
    + budget_done.
    + rewrite try_except_ret. budget_done.
    + budget_write. rewrite try_except_bind. unfold sleep, emit.
      rewrite try_except_ret. budget_done.
Qed.

Lemma login_loop_budget (delay_factor : Q) (n : nat) :
  forall (st : state) (return_msg : string),
    login_budget self n st
      (Huawei.login_loop self n pri alt username_pattern pwd_pattern
         delay_factor password_change_prompt (combined_pattern pri alt)
         return_msg st).
Proof.
  induction n as [|n IH]; intros st return_msg.
  - unfold login_budget. cbn. repeat split; lia.
  - cbn [Huawei.login_loop]. unfold bind at 1.
    pose proof (login_round_budget delay_factor st return_msg) as H.
    destruct (try_except _ _ _ st) as [[[msg|rm]|e] st1].
    + unfold login_budget in *. cbn [fst snd ret] in *.
      destruct H as (H1 & H2 & H3). repeat split; try lia. exact H3.
    + specialize (IH st1 rm).
      destruct (Huawei.login_loop _ _ _ _ _ _ _ _ _ _ st1) as [r st2].
      unfold login_budget in *. cbn [fst snd] in *.
      destruct H as (H1 & H2 & H3). destruct IH as (I1 & I2 & I3).
      repeat split; try lia.
      destruct r as [a|e]; [congruence|].
      destruct (is_login_failure e); [exact I3 | congruence].
    + unfold login_budget in *. cbn [fst snd] in *.
      destruct H as (H1 & H2 & H3). repeat split; try lia. exact H3.
Qed.

(** The whole method on a fresh connection. *)
Lemma telnet_login_budget (delay_factor : Q) (max_loops : Z)
  (script : list chunk) (faults : list bool) :
  forall r st',
    Huawei.telnet_login self pri alt username_pattern pwd_pattern
      delay_factor max_loops (connect script faults) = (r, st') ->
    (count_blocking_reads (trace st') <= 4 * Z.to_nat max_loops)%nat
    /\ (List.length (writes_of (trace st')) <= 4 * Z.to_nat max_loops + 1)%nat
    /\ (closed st' = true <-> r = Raise (login_failure self)).
Proof.
  intros r st'. unfold Huawei.telnet_login. cbv zeta.
  fold password_change_prompt. fold (combined_pattern pri alt).
  pose proof (login_loop_budget (select_delay_factor delay_factor)
                (Z.to_nat max_loops) (connect script faults) EmptyString) as H.
  unfold login_budget in H. cbn [connect trace closed] in H.
  change (count_blocking_reads []) with 0%nat in H.
  change (List.length (writes_of [])) with 0%nat in H.
  unfold bind at 1.
  destruct (Huawei.login_loop _ _ _ _ _ _ _ _ _ _ _) as [[[msg|rm]|e] st].
  - destruct H as (H1 & H2 & H3). cbn [fst snd ret] in *.
    intros [= <- <-].
    split; [lia|]. split; [lia|].
    split; [intros Hc; congruence | discriminate].
  - destruct H as (H1 & H2 & H3). cbn [fst snd] in *.
    fold (final_probe self pri alt delay_factor rm). intros E.
    destruct (final_probe_io self pri alt delay_factor _ _ _ _ E)
      as (P1 & P2 & P3).
    rewrite P1, P2. cbn [List.length].
    split; [lia|]. split; [lia|]. split.
    + intros Hc. destruct r as [a|e]; [congruence|].
      destruct (is_login_failure e); [now destruct P3 as [-> _] | congruence].
    + intros ->. now destruct P3.
  - destruct H as (H1 & H2 & H3). cbn [fst snd] in *.
    intros [= <- <-].
    split; [lia|]. split; [lia|]. split.
    + intros Hc. destruct (is_login_failure e); [now destruct H3 as [-> _]|].
      congruence.
    + intros [= ->]. now destruct H3.
Qed.

End TelnetLoginBudget.

(** X12. [telnet_login] closes the transport in exactly the runs that
    end in the login failure: after a return, and after any other
    exception (a send that fails, a timeout, a pattern that does not
    compile, the missing password), the transport is left open. *)
Theorem telnet_login_closes_on_failure_only :
  forall (base : CiscoBaseConnection) (self : session)
         (pri alt username_pattern pwd_pattern : string)
         (delay_factor : Q) (max_loops : Z)
         (script : list chunk) (faults : list bool),
    let run := Huawei.telnet_login self pri alt username_pattern pwd_pattern
                 delay_factor max_loops (connect script faults) in
    closed (snd run) = true <-> fst run = Raise (login_failure self).
Proof.
  intros base self pri alt username_pattern pwd_pattern delay_factor max_loops
    script faults.
  intros run.
  destruct run as [r st'] eqn:E. subst run.
  exact (proj2 (proj2 (telnet_login_budget self pri alt username_pattern
                         pwd_pattern delay_factor max_loops script faults
                         r st' E))).
Qed.

(** X13. The effort of [telnet_login] is bounded by [max_loops]: a run
    makes at most four blocking reads and four writes per round, and
    one more write for the final probe. *)
Theorem telnet_login_bounded_io :
  forall (base : CiscoBaseConnection) (self : session)
         (pri alt username_pattern pwd_pattern : string)
         (delay_factor : Q) (max_loops : Z)
         (script : list chunk) (faults : list bool),
    let run := Huawei.telnet_login self pri alt username_pattern pwd_pattern
                 delay_factor max_loops (connect script faults) in
    (count_blocking_reads (trace (snd run)) <= 4 * Z.to_nat max_loops)%nat
    /\ (List.length (writes_of (trace (snd run)))
        <= 4 * Z.to_nat max_loops + 1)%nat.
Proof.
  intros base self pri alt username_pattern pwd_pattern delay_factor max_loops
    script faults.
  intros run.
  destruct run as [r st'] eqn:E. subst run.
  pose proof (telnet_login_budget self pri alt username_pattern pwd_pattern
                delay_factor max_loops script faults r st' E) as (H1 & H2 & _).
  now split.
Qed.

(* ================================================================== *)
(** * More on [HuaweiVrpv8SSH.commit] *)
(* ================================================================== *)

(** X14. When the commit command itself fails (a timeout of its read,
    a dead connection), [commit] raises that exception in the state the
    command left: [exit_config_mode] is not called, so the session stays
    in configuration mode. *)
Theorem commit_failure_skips_config_exit :
  forall (base : CiscoBaseConnection) (comment : string) (read_timeout : Q)
         (delay_factor : option Q) (st st1 st2 : state) (o1 : string) (e : exn),
    super_config_mode "system-view" EmptyString 0 (after_warning delay_factor st)
      = (Return o1, st1) ->
    _send_command_str (commit_command comment) false false read_timeout "]" st1
      = (Raise e, st2) ->
    Huawei.commit comment read_timeout delay_factor st = (Raise e, st2).
Proof.
  intros base comment read_timeout delay_factor st st1 st2 o1 e H1 H2.
  unfold Huawei.commit, Huawei.config_mode.
  assert (Hw : forall (k : unit -> M string),
             bind (match delay_factor with
                   | Some _ => emit EvWarn
                   | None => ret tt
                   end) k st = k tt (after_warning delay_factor st)).
  { intros k. destruct delay_factor; reflexivity. }
  rewrite Hw. rewrite (bind_Return _ _ _ _ _ H1).
  unfold commit_command in H2.
  change ("commit" ++ " comment " ++ DQUOTE ++ comment ++ DQUOTE)
    with ("commit comment " ++ DQUOTE ++ comment ++ DQUOTE).
  now rewrite (bind_Raise _ _ _ _ _ H2).
Qed.

Lemma commit_failure_skips_config_exit_witness :
  @Huawei.commit (ScriptedBase example_session) "nightly" 120 None
    (connect [Data "[~sw1]"; ConnErr; Data "<sw1>"] [])
  = (Raise socket_error,
     mkState [Data "<sw1>"] [] false
       [EvRead (Raise socket_error);
        EvWrite ("commit comment " ++ DQUOTE ++ "nightly" ++ DQUOTE ++ LF);
        EvRead (Return "[~sw1]"); EvWrite ("system-view" ++ LF)]
       EmptyString false).
Proof.
  eapply (commit_failure_skips_config_exit (ScriptedBase example_session)
            "nightly" 120 None
            (connect [Data "[~sw1]"; ConnErr; Data "<sw1>"] [])); reflexivity.
Defined.

(* ================================================================== *)
(** * More on [HPProcurveBase.enable] *)
(* ================================================================== *)

Section EnableFacts.
Context {base : CiscoBaseConnection}.

Lemma ends_privileged_bind {A B : Type} (c : M A) (f : A -> M B) :
  (forall a, ends_privileged (f a)) -> ends_privileged (bind c f).
Proof.
  intros H st b st'. unfold bind.
  destruct (c st) as [[a|e] st1]; [apply H | discriminate].
Qed.

Lemma ends_privileged_check {A : Type} (e : exn) (a : A) :
  ends_privileged
    (bind check_enable_mode
       (fun now_enabled : bool => if negb now_enabled then raise e else ret a)).
Proof.
  intros st x st'. unfold bind.
  destruct (check_enable_mode st) as [[[|]|e0] st1] eqn:E;
    cbn [negb raise ret]; try discriminate.
  intros [= _ <-]. now exists st.
Qed.

End EnableFacts.

(** X15. [enable] returns only in a state in which [check_enable_mode]
    has just answered True: at once when the session is privileged
    already, and otherwise after the final check; a session that is not
    privileged in the end never gets an output back. *)
Theorem enable_returns_only_when_privileged :
  forall (base : CiscoBaseConnection) (self : session)
         (cmd pattern : string) (enable_pattern : option string)
         (re_flags : Z) (default_username : string)
         (st st' : state) (output : string),
    HPProcurve.enable self cmd pattern enable_pattern re_flags
      default_username st = (Return output, st') ->
    exists st0, check_enable_mode st0 = (Return true, st').
Proof.
  intros base self cmd pattern enable_pattern re_flags default_username
    st st' output.
  unfold HPProcurve.enable. unfold bind at 1.
  destruct (check_enable_mode st) as [[[|]|e] st1] eqn:E; try discriminate.
  - intros [= _ <-]. now exists st.
  - cbv zeta. revert st1 output st' E. intros st1 output st' _.
    apply ends_privileged_bind. intros _.
    apply ends_privileged_bind. intros new_output.
    apply ends_privileged_bind. intros asked_user.
    apply ends_privileged_bind. intros [output1 new_output1].
    apply ends_privileged_bind. intros asked_pwd.
    apply ends_privileged_bind. intros [output2 new_output2].
    apply ends_privileged_bind. intros _.
    apply ends_privileged_check.
Qed.

Lemma enable_returns_only_when_privileged_witness :
  exists st0,
    @check_enable_mode (ScriptedBase example_session) st0
    = (Return true,
       mkState [] [] false
         [EvRead (Return "sw1# "); EvWrite LF; EvClearBuffer;
          EvReadUntil "[>#]" re.IGNORECASE (Return "sw1# ");
          EvWrite ("s3cret" ++ LF);
          EvReadUntil "(username|login|user name|password|[>#])"
            re.IGNORECASE (Return "Password: ");
          EvWrite ("enable" ++ LF); EvRead (Return "sw1> "); EvWrite LF]
         EmptyString false).
Proof.
  apply (enable_returns_only_when_privileged (ScriptedBase example_session)
           example_session "enable" "password" None re.IGNORECASE "manager"
           (connect [Data "sw1> "; Data "Password: "; Data "sw1# ";
                     Data "junk"; Data "sw1# "] [])
           _ "Password: sw1# ").
  vm_compute. reflexivity.
Defined.

(* ================================================================== *)
(** * More on [HPProcurveBase.cleanup] *)
(* ================================================================== *)

Section CleanupMore.
Variable self : session.

Ltac round_done :=
  unfold ret; cbn [fst snd trace log_event];
  repeat match goal with
    | H : trace ?s = _ |- context [trace ?s] => rewrite H
    end;
  unfold count_sleeps, count_reads;
  cbn [trace log_event filter is_sleep is_read writes_of List.length];
  repeat split; lia.

(** A round sleeps once, reads once and writes at most once. *)
Lemma cleanup_round_effort (output : string) (st : state) :
  forall r st',
    HPProcurve.cleanup_round self output st = (r, st') ->
    count_sleeps (trace st') = S (count_sleeps (trace st))
    /\ count_reads (trace st') = S (count_reads (trace st))
    /\ (List.length (writes_of (trace st'))
        <= S (List.length (writes_of (trace st))))%nat.
Proof.
  intros r st'. unfold HPProcurve.cleanup_round.
  unfold bind at 1, sleep, emit.
  set (st0 := log_event (EvSleep (3 # 10)) st).
  assert (Ht0 : trace st0 = EvSleep (3 # 10) :: trace st) by reflexivity.
  clearbody st0.
  unfold bind at 1, try_except at 1, bind at 1.
  destruct (read_channel_shape st0) as (r0 & st1 & E & _ & Ht1 & _).
  rewrite E. clear E.
  destruct r0 as [new_output|e0].
  - cbn [ret].
    destruct (PyStr.contains "Do you want to log out" new_output).
    + destruct (write_channel_shape ("y" ++ RETURN self) st1)
        as (st2 & _ & [[E2 Ht2] | [E2 Ht2]]);
        unfold bind; rewrite E2; intros [= <- <-]; round_done.
    + destruct (PyStr.contains "Do you want to save the current" new_output).
      * destruct (write_channel_shape ("n" ++ RETURN self) st1)
          as (st2 & _ & [[E2 Ht2] | [E2 Ht2]]);
          unfold bind; rewrite E2; intros [= <- <-]; round_done.
      * unfold try_except, bind.
        destruct (write_channel_shape (RETURN self) st1)
          as (st2 & _ & [[E2 Ht2] | [E2 Ht2]]);
          rewrite E2; cbn [is_socket_error]; intros [= <- <-]; round_done.
  - destruct (is_socket_error e0); intros [= <- <-]; round_done.
Qed.

Lemma cleanup_loop_effort (n : nat) :
  forall (output : string) (st : state) r st',
    HPProcurve.cleanup_loop self n output st = (r, st') ->
    (count_sleeps (trace st') <= count_sleeps (trace st) + n)%nat
    /\ (count_reads (trace st') <= count_reads (trace st) + n)%nat
    /\ (List.length (writes_of (trace st'))
        <= List.length (writes_of (trace st)) + n)%nat.
Proof.
  induction n as [|n IH]; intros output st r st'; cbn [HPProcurve.cleanup_loop].
  - intros [= <- <-]. repeat split; lia.
  - unfold bind at 1.
    destruct (HPProcurve.cleanup_round self output st) as [r1 st1] eqn:E.
    destruct (cleanup_round_effort _ _ _ _ E) as (H1 & H2 & H3).
    destruct r1 as [[[] out]|e].
    + intros H. destruct (IH _ _ _ _ H) as (I1 & I2 & I3).
      repeat split; lia.
    + intros [= <- <-]. repeat split; lia.
    + intros [= <- <-]. repeat split; lia.
Qed.

(** A round on a silent, healthy channel: a bare return is sent. *)
Lemma cleanup_round_silent (output : string) (st : state) :
  incoming st = [] -> send_faults st = [] ->
  HPProcurve.cleanup_round self output st
  = (Return (HPProcurve.Continue, output ++ EmptyString),
     log_event (EvWrite (RETURN self))
       (log_event (EvRead (Return EmptyString))
          (log_event (EvSleep (3 # 10)) st))).
Proof.
  intros Hi Hf.
  unfold HPProcurve.cleanup_round, bind, try_except, sleep, emit,
    read_channel, write_channel, ret.
  cbn. rewrite Hi. cbn. rewrite Hf. reflexivity.
Qed.

Lemma cleanup_loop_silent (n : nat) :
  forall (output : string) (st : state),
    incoming st = [] -> send_faults st = [] ->
    exists st',
      HPProcurve.cleanup_loop self n output st = (Return tt, st')
      /\ count_sleeps (trace st') = (count_sleeps (trace st) + n)%nat
      /\ writes_of (trace st') = (repeat (RETURN self) n ++ writes_of (trace st))%list.
Proof.
  induction n as [|n IH]; intros output st Hi Hf; cbn [HPProcurve.cleanup_loop].
  - exists st. repeat split. lia.
  - rewrite (bind_Return _ _ _ _ _ (cleanup_round_silent output st Hi Hf)).
    destruct (IH (output ++ EmptyString)
                (log_event (EvWrite (RETURN self))
                   (log_event (EvRead (Return EmptyString))
                      (log_event (EvSleep (3 # 10)) st))) Hi Hf)
      as (st' & E & Hs & Hw).
    exists st'. split; [exact E|]. rewrite Hs, Hw. unfold count_sleeps. cbn.
    split; [lia|].
    change (RETURN self :: writes_of (trace st))
      with ([RETURN self] ++ writes_of (trace st))%list.
    now rewrite app_assoc, <- repeat_cons.
Qed.

End CleanupMore.

Section CleanupWhole.
Context {base : CiscoBaseConnection}.
Variable self : session.

Lemma cleanup_after_leaving (command : string) (st st0 : state) :
  leave_config_mode st = (Return tt, st0) ->
  HPProcurve.cleanup self command st = logout_and_finalize self command st0.
Proof.
  intros H. unfold HPProcurve.cleanup. fold leave_config_mode.
  now rewrite (bind_Return _ _ _ _ _ H).
Qed.

Lemma cleanup_outcome (command : string) (st : state) :
  forall r st',
    HPProcurve.cleanup self command st = (r, st') ->
    match r with
    | Return _ =>
        _session_log_fin st' = true
        /\ hd_error (trace st') = Some EvSessionLogFin
    | Raise e =>
        (e = socket_error
         /\ hd_error (trace st')
            = Some (EvWriteFailed (command ++ RETURN self)))
        \/ round_escape self e (trace st')
    end.
Proof.
  intros r st'.
  destruct (leave_config_mode_returns st) as [st0 H0].
  rewrite (cleanup_after_leaving command st st0 H0).
  unfold logout_and_finalize.
  destruct (write_channel_shape (command ++ RETURN self) st0)
    as (st1 & _ & [[E Ht1] | [E Ht1]]).
  2:{ rewrite (bind_Raise _ _ _ _ _ E). intros [= <- <-].
      left. rewrite Ht1. now split. }
  rewrite (bind_Return _ _ _ _ _ E). clear E.
  destruct (HPProcurve.cleanup_loop self HPProcurve.cleanup_rounds
              EmptyString st1) as [[[]|e] st2] eqn:El.
  - rewrite (bind_Return _ _ _ _ _ El). intros [= <- <-]. now split.
  - rewrite (bind_Raise _ _ _ _ _ El). intros [= <- <-]. right.
    eapply cleanup_loop_escapes, El.
Qed.

End CleanupWhole.

(** X16. The teardown loop is bounded: it makes at most 11 rounds (the
    values 0 to 10 of its counter), each with one sleep, one read and at
    most one write. *)
Theorem cleanup_loop_bounded :
  forall (self : session) (output : string) (st : state),
    let st' := snd (HPProcurve.cleanup_loop self HPProcurve.cleanup_rounds
                      output st) in
    (count_sleeps (trace st') <= count_sleeps (trace st) + 11)%nat
    /\ (count_reads (trace st') <= count_reads (trace st) + 11)%nat
    /\ (List.length (writes_of (trace st'))
        <= List.length (writes_of (trace st)) + 11)%nat.
Proof.
  intros self output st.
  destruct (HPProcurve.cleanup_loop self HPProcurve.cleanup_rounds output st)
    as [r st'] eqn:E.
  exact (cleanup_loop_effort self _ _ _ _ _ E).
Qed.

(** X17. On a device that stays silent behind a healthy connection,
    [cleanup] sends the logout command, then one bare return in each of
    11 rounds, 0.3 s apart, and marks the session finalized. *)
Theorem cleanup_on_silent_device :
  forall (base : CiscoBaseConnection) (self : session) (command : string)
         (st st0 : state),
    leave_config_mode st = (Return tt, st0) ->
    incoming st0 = [] ->
    send_faults st0 = [] ->
    exists st',
      HPProcurve.cleanup self command st = (Return tt, st')
      /\ writes_of (trace st')
         = (repeat (RETURN self) 11
            ++ (command ++ RETURN self)%string :: writes_of (trace st0))%list
      /\ count_sleeps (trace st') = (count_sleeps (trace st0) + 11)%nat
      /\ _session_log_fin st' = true.
Proof.
  intros base self command st st0 H0 Hi Hf.
  rewrite (cleanup_after_leaving self command st st0 H0).
  unfold logout_and_finalize.
  assert (Hw : write_channel (command ++ RETURN self) st0
               = (Return tt, log_event (EvWrite (command ++ RETURN self)) st0))
    by (unfold write_channel; now rewrite Hf).
  rewrite (bind_Return _ _ _ _ _ Hw).
  destruct (cleanup_loop_silent self HPProcurve.cleanup_rounds EmptyString
              (log_event (EvWrite (command ++ RETURN self)) st0) Hi Hf)
    as (st2 & El & Hs & Hwr).
  rewrite (bind_Return _ _ _ _ _ El).
  eexists. split; [reflexivity|].
  cbn [trace log_event set_session_log_fin _session_log_fin writes_of].
  rewrite Hwr. unfold count_sleeps in *. cbn [filter is_sleep]. rewrite Hs.
  repeat split.
Qed.

Lemma cleanup_on_silent_device_witness :
  exists st',
    @HPProcurve.cleanup (ScriptedBase example_session) example_session
      "logout" (connect [Data "sw1# "] []) = (Return tt, st')
    /\ writes_of (trace st')
       = (repeat LF 11 ++ ["logout" ++ LF; LF]%string)%list
    /\ count_sleeps (trace st') = 11%nat
    /\ _session_log_fin st' = true.
Proof.
  exact (cleanup_on_silent_device (ScriptedBase example_session)
           example_session "logout" (connect [Data "sw1# "] []) _
           eq_refl eq_refl eq_refl).
Defined.

(** X18. In a round of the teardown loop whose read shows the log-out
    prompt, the one write of the round is [y] followed by the line
    terminator, whatever else the read shows. *)
Theorem cleanup_round_logout_prompt_answered_y :
  forall (self : session) (output text : string) (rest : list chunk)
         (faults : list bool),
    PyStr.contains "Do you want to log out" text = true ->
    writes_of (trace (snd (HPProcurve.cleanup_round self output
                             (connect (Data text :: rest) faults))))
    = ["y" ++ RETURN self].
Proof.
  intros self output text rest faults Hlogout.
  unfold HPProcurve.cleanup_round, bind, try_except, sleep, emit, read_channel.
  cbn. rewrite Hlogout.
  unfold write_channel, ret. cbn.
  destruct faults as [|[|] faults]; reflexivity.
Qed.

Lemma cleanup_round_logout_prompt_answered_y_witness :
  writes_of (trace (snd (HPProcurve.cleanup_round example_session EmptyString
                           (connect [Data "Do you want to log out [y/n]? "] []))))
  = ["y" ++ LF].
Proof.
  apply (cleanup_round_logout_prompt_answered_y example_session); reflexivity.
Defined.

(** X19. A connection found dead by the first read of the teardown loop
    ends the loop in that round, with nothing written, and [cleanup]
    returns with the session marked finalized. *)
Theorem cleanup_dead_connection_finalizes :
  forall (base : CiscoBaseConnection) (self : session) (command : string)
         (st st0 st1 : state) (rest : list chunk),
    leave_config_mode st = (Return tt, st0) ->
    write_channel (command ++ RETURN self) st0 = (Return tt, st1) ->
    incoming st1 = ConnErr :: rest ->
    HPProcurve.cleanup self command st
    = (Return tt,
       log_event EvSessionLogFin
         (set_session_log_fin true
            (log_event (EvRead (Raise socket_error))
               (set_incoming rest (log_event (EvSleep (3 # 10)) st1))))).
Proof.
  intros base self command st st0 st1 rest H0 H1 Hi.
  apply (cleanup_finalizes_after_loop self command st st0 st1 _ H0 H1).
  change HPProcurve.cleanup_rounds with 11%nat.
  cbn [HPProcurve.cleanup_loop].
  now rewrite (bind_Return _ _ _ _ _ (cleanup_round_read_error self EmptyString
                                        st1 rest Hi)).
Qed.

Lemma cleanup_dead_connection_finalizes_witness :
  _session_log_fin
    (snd (@HPProcurve.cleanup (ScriptedBase example_session) example_session
            "logout" (connect [Data "sw1# "; ConnErr] [])))
  = true.
Proof.
  rewrite (cleanup_dead_connection_finalizes (ScriptedBase example_session)
             example_session "logout" (connect [Data "sw1# "; ConnErr] [])
             _ _ [] eq_refl eq_refl eq_refl).
  reflexivity.
Defined.

(** X20. Every run of [cleanup] ends in one of two ways. Either it
    returns, and then marking the session finalized was the last thing
    it did. Or it raises, and then the exception is the socket error of
    a send the loop does not guard (the logout command, the answer [y]
    or the answer [n]) or the EOFError of a read; errors while leaving
    configuration mode, socket errors of reads and of the bare return
    never leave it. *)
Theorem cleanup_outcomes :
  forall (base : CiscoBaseConnection) (self : session) (command : string)
         (st : state),
    let run := HPProcurve.cleanup self command st in
    match fst run with
    | Return _ =>
        _session_log_fin (snd run) = true
        /\ hd_error (trace (snd run)) = Some EvSessionLogFin
    | Raise e =>
        (e = socket_error
         /\ hd_error (trace (snd run))
            = Some (EvWriteFailed (command ++ RETURN self)))
        \/ round_escape self e (trace (snd run))
    end.
Proof.
  intros base self command st run.
  destruct run as [r st'] eqn:E. subst run.
  exact (cleanup_outcome self command st r st' E).
Qed.

(** X21. Whatever happens while [cleanup] leaves configuration mode,
    an exception of the mode check or of the exit included, the logout
    command is sent next: [cleanup] goes on as the logout, the loop and
    the finalization from the state that first step left. *)
Theorem cleanup_swallows_config_mode_errors :
  forall (base : CiscoBaseConnection) (self : session) (command : string)
         (st : state),
    exists st0,
      leave_config_mode st = (Return tt, st0)
      /\ HPProcurve.cleanup self command st
         = logout_and_finalize self command st0.
Proof.
  intros base self command st.
  destruct (leave_config_mode_returns st) as [st0 H0].
  exists st0. split; [exact H0|].
  exact (cleanup_after_leaving self command st st0 H0).
Qed.
